(** * Moonshot Fund API: the handlers of [main.py], embedded and verified.

    The handlers are translated as functions in a state-and-exception monad
    over the process state ([db], the environment and the driver's call
    history).  Documents are dictionaries ([gmap string value]); Python
    floats are IEEE-754 doubles ([PrimFloat.float]). *)

From Stdlib Require Import PrimFloat SpecFloat FloatOps ZArith Ascii.
From stdpp Require Import gmap strings list.

Local Open Scope string_scope.
Local Open Scope list_scope.

(** ** Python values and exceptions *)

(** The values a stored document or a request field can hold. *)
Inductive value :=
  | VNone
  | VStr (s : string)
  | VBool (b : bool)
  | VInt (z : Z)
  | VFloat (f : float).

Abbreviation dict := (gmap string value).

(** [d.get(k, default)]. *)
Definition get (d : dict) (k : string) (default : value) : value :=
  match d !! k with
  | Some v => v
  | None => default
  end.

(** The handlers tell two kinds of exception apart: [HTTPException] and
    every other [Exception], of which only [str(e)] is ever used. *)
Inductive exn :=
  | HTTPException (status_code : nat) (detail : string)
  | Exception (msg : string).

(** Decimal text of a status code, as an f-string renders it. *)
Definition digit (n : nat) : string :=
  String (ascii_of_nat (48 + n)) "".

Fixpoint decimal (fuel n : nat) : string :=
  match fuel with
  | 0 => ""
  | S fuel' =>
      if (n <? 10)%nat then digit n
      else decimal fuel' (n / 10) +:+ digit (n mod 10)
  end.

(** [str(e)]; for an [HTTPException] it is the framework's
    [f"{status_code}: {detail}"]. *)
Definition str (e : exn) : string :=
  match e with
  | HTTPException c d => decimal (S c) c +:+ ": " +:+ d
  | Exception m => m
  end.

Inductive result (A : Type) :=
  | Ok (a : A)
  | Raise (e : exn).
Arguments Ok {A} a.
Arguments Raise {A} e.

(** ** The monad of the handlers: state [S], result or exception *)

Definition M (S A : Type) : Type := S -> result A * S.

Definition ret {S A} (a : A) : M S A := fun s => (Ok a, s).

Definition raise {S A} (e : exn) : M S A := fun s => (Raise e, s).

Definition bind {S A B} (m : M S A) (k : A -> M S B) : M S B :=
  fun s =>
    match m s with
    | (Ok a, s') => k a s'
    | (Raise e, s') => (Raise e, s')
    end.

Notation "x <- m ;; k" := (bind m (fun x => k))
  (at level 100, m at next level, right associativity).
Notation "m ;;; k" := (bind m (fun _ => k))
  (at level 100, right associativity).

(** [try: m  except <all>: h e]; what [m] did to the state before it raised
    stays done. *)
Definition try_except {S A} (m : M S A) (h : exn -> M S A) : M S A :=
  fun s =>
    match m s with
    | (Ok a, s') => (Ok a, s')
    | (Raise e, s') => h e s'
    end.

Definition lift {S A} (r : result A) : M S A := fun s => (r, s).

(** The two shapes of handler epilogue in [main.py]. *)

(** [except Exception as e: raise HTTPException(status_code=500, detail=str(e))]
    ([HTTPException] is itself an [Exception]). *)
Definition except_500 {S A} (m : M S A) : M S A :=
  try_except m (fun e => raise (HTTPException 500 (str e))).

(** [except HTTPException: raise] followed by the clause above. *)
Definition except_reraise_500 {S A} (m : M S A) : M S A :=
  try_except m (fun e =>
    match e with
    | HTTPException c d => raise (HTTPException c d)
    | Exception _ => raise (HTTPException 500 (str e))
    end).

(** A stored document is its [_id] (always present, the text of an
    [ObjectId]) and the fields that were inserted. *)
Record document := {
  _id : string;
  fields : dict;
}.

(** ** Library code the handlers call

    [bson.ObjectId], Python's [float] on text, the response model's
    validation and the store's [$sum] accumulator are library code; the
    handlers are verified for every behaviour of them. *)
Class Libraries := {
  (** [ObjectId(s)]: [inl msg] when it raises ([InvalidId], whose text is
      [msg]), [inr t] when it parses, [t] being [str] of the identifier. *)
  ObjectId : string -> string + string;
  (** [str] of the [n]-th identifier the store generates. *)
  new_ObjectId : nat -> string;
  (** [float(s)] on text: [inl msg] when it raises. *)
  float_of_str : string -> string + float;
  (** What a [str] field of a response model makes of a value that is
      neither text nor [None]: the coerced text, or nothing when it is
      refused. *)
  coerce_str : value -> option string;
  (** [str(e)] of the validation error that lists the refused fields. *)
  validation_error : list (string * value) -> string;
  (** The [$sum] accumulator over the values of a field. *)
  sum_values : list value -> value;
  (** The names [list_collection_names] gives for the collections of a
      store, in the order in which the store lists them. *)
  collection_names : gmap string (list document) -> list string;
}.

(** ** The document store *)

(** A query value: the handlers only ever filter on text and booleans. *)
Inductive qvalue :=
  | QStr (s : string)
  | QBool (b : bool).

(** The calls the driver has received, oldest first. *)
Inductive call :=
  | Find (coll : string) (filter : gmap string qvalue)
  | FindOne (coll : string) (oid : string)
  | Aggregate (coll : string) (pid : string)
  | InsertOne (coll : string) (data : dict)
  | ListCollectionNames.

Record Database := {
  name : string;
  colls : gmap string (list document);
  (** how many identifiers the store has generated *)
  issued : nat;
  (** [Some msg]: the store is unreachable, every call raises with [msg] *)
  fault : option string;
  calls : list call;
}.

(** The process state: the module-level [db] (which is [None] when no
    database was configured) and the environment variable read by [/test]. *)
Record world := {
  db : option Database;
  DATABASE_URL : option string;
}.

Definition set_db (d : Database) (w : world) : world :=
  {| db := Some d; DATABASE_URL := DATABASE_URL w |}.

Definition log (c : call) (d : Database) : Database :=
  {| name := name d; colls := colls d; issued := issued d;
     fault := fault d; calls := calls d ++ [c] |}.

(** [db[coll]]: the documents of a collection, none when it does not exist. *)
Definition docs_of (d : Database) (coll : string) : list document :=
  default [] (colls d !! coll).

(** A call to the driver on an existing [db]: it is recorded, and it raises
    when the store is unreachable. *)
Definition driver {A} (c : call) (run : Database -> A * Database)
  : M Database A :=
  fun d =>
    let d1 := log c d in
    match fault d1 with
    | Some msg => (Raise (Exception msg), d1)
    | None => let '(a, d2) := run d1 in (Ok a, d2)
    end.

(** Run a driver call on the module-level [db]; [none_msg] is the text of
    the exception raised when [db] is [None]. *)
Definition on_db {A} (none_msg : string) (m : M Database A) : M world A :=
  fun w =>
    match db w with
    | None => (Raise (Exception none_msg), w)
    | Some d => let '(r, d') := m d in (r, set_db d' w)
    end.

(** [db[coll]] on the module-level [db]: subscripting [None] is a
    [TypeError]. *)
Definition not_subscriptable : string :=
  "'NoneType' object is not subscriptable".

(** *** Queries *)

Definition field_matches (d : document) (k : string) (q : qvalue) : bool :=
  match fields d !! k, q with
  | Some (VStr s), QStr s' => bool_decide (s = s')
  | Some (VBool b), QBool b' => bool_decide (b = b')
  | _, _ => false
  end.

(** Equality on every key of the filter; the empty filter matches all. *)
Definition matches (filter : gmap string qvalue) (d : document) : bool :=
  forallb (fun kq => field_matches d kq.1 kq.2) (map_to_list filter).

(** [coll.find_one({"_id": oid})] *)
Definition find_one (coll oid : string) : M Database (option document) :=
  driver (FindOne coll oid) (fun d =>
    (List.find (fun x => bool_decide (_id x = oid)) (docs_of d coll), d)).

(** [{"$match": {"project_id": pid}}] *)
Definition refers_to (pid : string) (x : document) : bool :=
  match fields x !! "project_id" with
  | Some (VStr s) => bool_decide (s = pid)
  | _ => false
  end.

Section Store.
Context `{Libraries}.

(** [coll.aggregate([{"$match": {"project_id": pid}},
    {"$group": {"_id": "$project_id", "total": {"$sum": "$amount"}}}])]:
    the matched documents all carry [pid], so there is one group when any
    matched and none otherwise. *)
Definition group_totals (pid : string) (xs : list document) : list dict :=
  match List.filter (refers_to pid) xs with
  | [] => []
  | matched =>
      [ <["_id" := VStr pid]>
        (<["total" := sum_values (omap (fun x => fields x !! "amount") matched)]> ∅) ]
  end.

Definition aggregate (coll pid : string) : M Database (list dict) :=
  driver (Aggregate coll pid) (fun d => (group_totals pid (docs_of d coll), d)).

(** [coll.insert_one(data)]: the document gets a fresh [_id] and goes
    last. *)
Definition insert_one (coll : string) (data : dict) : M Database string :=
  driver (InsertOne coll data) (fun d =>
    let oid := new_ObjectId (issued d) in
    (oid,
     {| name := name d;
        colls := <[coll := docs_of d coll ++ [{| _id := oid; fields := data |}]]> (colls d);
        issued := S (issued d);
        fault := fault d;
        calls := calls d |})).

Definition list_collection_names : M Database (list string) :=
  driver ListCollectionNames (fun d => (collection_names (colls d), d)).

(** The text of the generic failure of a store that is not available. *)
Definition store_unavailable : string := "store unavailable".

(** Modelled from the spec: the module [database] is not part of the
    sources.  [create_document] is the Gateway's insert: it writes the
    document under a store-generated identifier and returns that
    identifier as text; a store that is not available is a generic
    failure. *)
Definition create_document (coll : string) (data : dict) : M world string :=
  on_db store_unavailable (insert_one coll data).

(** Modelled from the spec: [get_documents] of the absent module
    [database] is the Gateway's find: all documents that match the
    filter, in the store's order. *)
Definition get_documents (coll : string) (filter : gmap string qvalue)
  : M world (list document) :=
  on_db store_unavailable
    (driver (Find coll filter) (fun d =>
       (List.filter (matches filter) (docs_of d coll), d))).
End Store.

(** ** Python built-ins used by the handlers *)

(** [float(z)] for an [int]: the nearest double, ties to even. *)
Definition float_of_Z (z : Z) : float :=
  SF2Prim (binary_normalize 53 1024 z 0 false).

Section Builtins.
Context `{Libraries}.

(** [float(v)] *)
Definition py_float (v : value) : result float :=
  match v with
  | VNone =>
      Raise (Exception
        "float() argument must be a string or a real number, not 'NoneType'")
  | VStr s =>
      match float_of_str s with
      | inl msg => Raise (Exception msg)
      | inr f => Ok f
      end
  | VBool b => Ok (if b then 1%float else 0%float)
  | VInt z =>
      let f := float_of_Z z in
      if is_infinity f
      then Raise (Exception "int too large to convert to float")
      else Ok f
  | VFloat f => Ok f
  end.
End Builtins.

(** [bool(v)] *)
Definition py_bool (v : value) : bool :=
  match v with
  | VNone => false
  | VStr s => negb (bool_decide (s = ""))
  | VBool b => b
  | VInt z => negb (z =? 0)%Z
  | VFloat f => negb (f =? 0)%float
  end.

(** [s[:n]], counting characters of UTF-8 text rather than bytes. *)
Definition is_continuation (a : ascii) : bool :=
  let b := nat_of_ascii a in (128 <=? b)%nat && (b <? 192)%nat.

Fixpoint slice_to (n : nat) (s : string) : string :=
  match s with
  | EmptyString => EmptyString
  | String a rest =>
      if is_continuation a then String a (slice_to n rest)
      else match n with
           | 0 => EmptyString
           | S n' => String a (slice_to n' rest)
           end
  end.

(** ** [GET /test] *)

Record response := {
  backend : string;
  database : string;
  database_url : option string;
  database_name : option string;
  connection_status : string;
  collections : list string;
}.

Definition set_database (v : string) (r : response) : response :=
  {| backend := backend r; database := v; database_url := database_url r;
     database_name := database_name r;
     connection_status := connection_status r; collections := collections r |}.

Definition set_database_url (v : option string) (r : response) : response :=
  {| backend := backend r; database := database r; database_url := v;
     database_name := database_name r;
     connection_status := connection_status r; collections := collections r |}.

Definition set_database_name (v : option string) (r : response) : response :=
  {| backend := backend r; database := database r;
     database_url := database_url r; database_name := v;
     connection_status := connection_status r; collections := collections r |}.

Definition set_connection_status (v : string) (r : response) : response :=
  {| backend := backend r; database := database r;
     database_url := database_url r; database_name := database_name r;
     connection_status := v; collections := collections r |}.

Definition set_collections (v : list string) (r : response) : response :=
  {| backend := backend r; database := database r;
     database_url := database_url r; database_name := database_name r;
     connection_status := connection_status r; collections := v |}.

(** The handler's local [response] dictionary lives next to the process
    state: an assignment made before an exception is still there in the
    [except] clause. *)
Definition setitem (f : response -> response) : M (response * world) unit :=
  fun s => (Ok tt, (f s.1, s.2)).

Definition in_world {A} (m : M world A) : M (response * world) A :=
  fun s => let '(r, w) := m s.2 in (r, (s.1, w)).

Definition global_db : M (response * world) (option Database) :=
  fun s => (Ok (db s.2), s).

(** [os.getenv("DATABASE_URL")] *)
Definition getenv_DATABASE_URL : M (response * world) (option string) :=
  fun s => (Ok (DATABASE_URL s.2), s).

Definition truthy (o : option string) : bool :=
  match o with
  | Some s => negb (bool_decide (s = ""))
  | None => false
  end.

Definition initial_response : response :=
  {| backend := "✅ Running";
     database := "❌ Not Available";
     database_url := None;
     database_name := None;
     connection_status := "Not Connected";
     collections := [] |}.

Section Handlers.
Context `{Libraries}.

(** The body of [test_database]; a [Database] always has a [name], so the
    conditional on [hasattr(db, 'name')] takes its first branch. *)
Definition test_database_try : M (response * world) unit :=
  try_except
    (d <- global_db ;;
     match d with
     | Some d0 =>
         setitem (set_database "✅ Available") ;;;
         (url <- getenv_DATABASE_URL ;;
          setitem (set_database_url
            (Some (if truthy url then "✅ Set" else "❌ Not Set")))) ;;;
         setitem (set_database_name (Some (name d0))) ;;;
         setitem (set_connection_status "Connected") ;;;
         try_except
           (collections <-
              in_world (on_db not_subscriptable list_collection_names) ;;
            setitem (set_collections (take 10 collections)) ;;;
            setitem (set_database "✅ Connected & Working"))
           (fun e =>
              setitem (set_database
                ("⚠️  Connected but Error: " +:+ slice_to 50 (str e))))
     | None => setitem (set_database "⚠️  Available but not initialized")
     end)
    (fun e => setitem (set_database ("❌ Error: " +:+ slice_to 50 (str e)))).

Definition test_database : M world response :=
  fun w =>
    match test_database_try (initial_response, w) with
    | (Ok _, (response, w')) => (Ok response, w')
    | (Raise e, (_, w')) => (Raise e, w')
    end.

(** ** The response model *)

(** [ProjectOut]; the record is built by [ProjectOut_new], which
    validates as the model's constructor does. *)
Record ProjectOut := {
  id : string;
  title : string;
  founder_name : string;
  founder_email : string;
  description : string;
  category : string;
  goal_amount : float;
  featured : bool;
  total_donations : float;
}.

(** A [str] field takes text as it is and refuses [None]. *)
Definition as_str (v : value) : option string :=
  match v with
  | VStr s => Some s
  | VNone => None
  | _ => coerce_str v
  end.

Definition refused (kv : string * value) : bool :=
  match as_str kv.2 with
  | Some _ => false
  | None => true
  end.

(** [ProjectOut(id=..., title=..., ...)]: the arguments that are already
    of the field's type are typed so; validation reports every refused
    field in one exception. *)
Definition ProjectOut_new (id_ : string)
    (title_ founder_name_ founder_email_ description_ category_ : value)
    (goal_amount_ : float) (featured_ : bool) (total_donations_ : float)
  : result ProjectOut :=
  match as_str title_, as_str founder_name_, as_str founder_email_,
        as_str description_, as_str category_ with
  | Some t, Some fn, Some fe, Some de, Some c =>
      Ok {| id := id_; title := t; founder_name := fn; founder_email := fe;
            description := de; category := c; goal_amount := goal_amount_;
            featured := featured_; total_donations := total_donations_ |}
  | _, _, _, _, _ =>
      Raise (Exception (validation_error
        (List.filter refused
           [("title", title_); ("founder_name", founder_name_);
            ("founder_email", founder_email_);
            ("description", description_); ("category", category_)])))
  end.

(** ** The project and donation handlers *)

(** [total = 0.0; for agg in donations: total = float(agg.get("total", 0))] *)
Fixpoint loop_total (donations : list dict) (total : float) : result float :=
  match donations with
  | [] => Ok total
  | agg :: rest =>
      match py_float (get agg "total" (VInt 0)) with
      | Ok t => loop_total rest t
      | Raise e => Raise e
      end
  end.

(** [db["donation"].aggregate([...])] followed by the loop above. *)
Definition donations_total (pid : string) : M world float :=
  donations <- on_db not_subscriptable (aggregate "donation" pid) ;;
  lift (loop_total donations 0%float).

(** The keyword arguments of [ProjectOut(...)], evaluated in order, then
    the constructor. *)
Definition project_out (id_ : string) (d : dict) (total : float)
  : result ProjectOut :=
  match py_float (get d "goal_amount" (VInt 0)) with
  | Raise e => Raise e
  | Ok goal =>
      ProjectOut_new id_
        (get d "title" VNone) (get d "founder_name" VNone)
        (get d "founder_email" VNone) (get d "description" VNone)
        (get d "category" (VStr "AI"))
        goal (py_bool (get d "featured" (VBool false))) total
  end.

(** One turn of [for d in docs:]. *)
Definition list_item (d : document) : M world ProjectOut :=
  let pid := _id d in
  total <- donations_total pid ;;
  lift (project_out pid (fields d) total).

Fixpoint for_docs (docs : list document) (results : list ProjectOut)
  : M world (list ProjectOut) :=
  match docs with
  | [] => ret results
  | d :: rest =>
      v <- list_item d ;;
      for_docs rest (results ++ [v])
  end.

(** [if category:] is false for [None] and for the empty text. *)
Definition filter_dict (category_ : option string) (featured_ : option bool)
  : gmap string qvalue :=
  let filter_dict := ∅ in
  let filter_dict :=
    match category_ with
    | Some c => if bool_decide (c = "") then filter_dict
                else <["category" := QStr c]> filter_dict
    | None => filter_dict
    end in
  match featured_ with
  | Some f => <["featured" := QBool f]> filter_dict
  | None => filter_dict
  end.

Definition list_projects (category_ : option string) (featured_ : option bool)
  : M world (list ProjectOut) :=
  except_500
    (docs <- get_documents "project" (filter_dict category_ featured_) ;;
     for_docs docs []).

(** Modelled from the spec: the module [schemas] is not part of the
    sources.  A [Donation] carries project_id (text), donor_name (text),
    amount (number) and an optional message (text). *)
Record Donation := {
  project_id : string;
  donor_name : string;
  amount : float;
  message : option string;
}.

(** The document [create_document] stores for a [Donation]. *)
Definition model_dump (donation : Donation) : dict :=
  <["project_id" := VStr (project_id donation)]>
  (<["donor_name" := VStr (donor_name donation)]>
  (<["amount" := VFloat (amount donation)]>
  (<["message" := match message donation with
                  | Some m => VStr m
                  | None => VNone
                  end]> ∅))).

(** [ObjectId(s)] as a step of a handler. *)
Definition ObjectId_ {S} (s : string) : M S string :=
  match ObjectId s with
  | inl msg => raise (Exception msg)
  | inr oid => ret oid
  end.

(** [db["project"].find_one({"_id": ObjectId(s)})]: the subscript is
    evaluated before the argument. *)
Definition find_project (s : string) : M world (option document) :=
  on_db not_subscriptable (ret tt) ;;;
  oid <- ObjectId_ s ;;
  on_db not_subscriptable (find_one "project" oid).

Definition create_donation_try (donation : Donation) : M world string :=
  let pid := project_id donation in
  try_except (ObjectId_ pid)
    (fun _ => raise (HTTPException 400 "Invalid project_id")) ;;;
  project <- find_project pid ;;
  match project with
  | None => raise (HTTPException 404 "Project not found")
  | Some _ => create_document "donation" (model_dump donation)
  end.

Definition create_donation (donation : Donation) : M world string :=
  except_reraise_500 (create_donation_try donation).

Definition get_project_try (project_id_ : string) : M world ProjectOut :=
  doc <- find_project project_id_ ;;
  match doc with
  | None => raise (HTTPException 404 "Project not found")
  | Some doc =>
      total <- donations_total project_id_ ;;
      lift (project_out (_id doc) (fields doc) total)
  end.

Definition get_project (project_id_ : string) : M world ProjectOut :=
  except_reraise_500 (get_project_try project_id_).
End Handlers.

(** ** A reference instance of the libraries

    Used to run the handlers on concrete requests.  [ObjectId] follows
    bson: text of 24 hexadecimal digits in either case is accepted, and
    [str] of the identifier is the lower-case text. *)
Module Reference.

Definition is_hex (a : ascii) : bool :=
  let b := nat_of_ascii a in
  ((48 <=? b) && (b <=? 57) || (97 <=? b) && (b <=? 102)
   || (65 <=? b) && (b <=? 70))%nat.

Definition lower (a : ascii) : ascii :=
  let b := nat_of_ascii a in
  if ((65 <=? b) && (b <=? 90))%nat then ascii_of_nat (b + 32) else a.

Fixpoint map_string (f : ascii -> ascii) (s : string) : string :=
  match s with
  | EmptyString => EmptyString
  | String a rest => String (f a) (map_string f rest)
  end.

Fixpoint all_string (p : ascii -> bool) (s : string) : bool :=
  match s with
  | EmptyString => true
  | String a rest => p a && all_string p rest
  end.

Definition parse_ObjectId (s : string) : string + string :=
  if (String.length s =? 24)%nat && all_string is_hex s
  then inr (map_string lower s)
  else inl ("'" +:+ s +:+
    "' is not a valid ObjectId, it must be a 12-byte input or a 24-character hex string").

Definition hex_digit (n : N) : ascii :=
  ascii_of_N (if (n <? 10)%N then 48 + n else 87 + n)%N.

Fixpoint hex (width : nat) (n : N) (acc : string) : string :=
  match width with
  | 0 => acc
  | S w => hex w (n / 16)%N (String (hex_digit (n mod 16)%N) acc)
  end.

(** The store's identifiers, here simply counted. *)
Definition counted_ObjectId (n : nat) : string := hex 24 (N.of_nat n) "".

(** [$sum]: values that are not numbers are skipped; the sum of integers
    is an integer, a double makes it a double. *)
Definition add_value (acc v : value) : value :=
  match acc, v with
  | VInt a, VInt b => VInt (a + b)
  | VInt a, VFloat b => VFloat (float_of_Z a + b)
  | VFloat a, VInt b => VFloat (a + float_of_Z b)
  | VFloat a, VFloat b => VFloat (a + b)
  | _, _ => acc
  end.

Definition sum_numbers (vs : list value) : value :=
  fold_left add_value vs (VInt 0).

(** The remaining members are not exercised by the examples: no example
    calls [float] on text, offers a number to a text field or depends on
    the order in which the collections are listed (here by name). *)
Definition libraries : Libraries :=
  {| ObjectId := parse_ObjectId;
     new_ObjectId := counted_ObjectId;
     float_of_str := fun s => inl ("could not convert string to float: '" +:+ s +:+ "'");
     coerce_str := fun _ => None;
     validation_error := fun refused_ =>
       "validation error for ProjectOut: " +:+
       fold_right (fun kv acc => kv.1 +:+ " " +:+ acc) "" refused_;
     sum_values := sum_numbers;
     collection_names := fun m => elements (dom m) |}.

End Reference.

(** ** Example stores *)
Module Examples.

Definition P1 : string := "507f1f77bcf86cd799439011".

Definition mars_rover : document :=
  {| _id := P1;
     fields :=
       <["title" := VStr "Mars Rover"]>
       (<["founder_name" := VStr "A"]>
       (<["founder_email" := VStr "a@x.com"]>
       (<["description" := VStr "d"]>
       (<["category" := VStr "Space"]>
       (<["goal_amount" := VFloat 1000]>
       (<["featured" := VBool false]> ∅)))))) |}.

Definition store (projects donations : list document) : world :=
  {| db := Some {| name := "moonshot";
                   colls := <["project" := projects]>
                            (<["donation" := donations]> ∅);
                   issued := 0; fault := None; calls := [] |};
     DATABASE_URL := Some "mongodb://localhost:27017" |}.

Definition gift (pid : string) (x : float) : Donation :=
  {| project_id := pid; donor_name := "B"; amount := x; message := None |}.

(** The same identifier, written in upper case. *)
Definition P1_upper : string := "507F1F77BCF86CD799439011".

(** A stored project without a [category] field. *)
Definition unlabelled : document :=
  {| _id := "507f1f77bcf86cd799439012";
     fields :=
       <["title" := VStr "Fusion Cell"]>
       (<["founder_name" := VStr "C"]>
       (<["founder_email" := VStr "c@x.com"]>
       (<["description" := VStr "e"]>
       (<["goal_amount" := VFloat 500]>
       (<["featured" := VBool true]> ∅))))) |}.

(** A stored project without a [title] field, in category "Space". *)
Definition untitled : document :=
  {| _id := "507f1f77bcf86cd799439013";
     fields :=
       <["founder_name" := VStr "D"]>
       (<["founder_email" := VStr "d@x.com"]>
       (<["description" := VStr "f"]>
       (<["category" := VStr "Space"]>
       (<["goal_amount" := VFloat 10]>
       (<["featured" := VBool false]> ∅))))) |}.

(** A project whose category field is stored as null. *)
Definition null_category : document :=
  {| _id := "507f1f77bcf86cd799439014";
     fields := <["category" := VNone]> (fields mars_rover) |}.

(** A stored project of category "AI". *)
Definition ai_tutor : document :=
  {| _id := "507f1f77bcf86cd799439015";
     fields := <["category" := VStr "AI"]> (fields mars_rover) |}.

(** The store after [POST /api/donations] of 250 for [P1]. *)
Definition funded : world :=
  (create_donation (H := Reference.libraries) (gift P1 250)
     (store [mars_rover] [])).2.


End Examples.

(** * Properties *)

(** ** Vocabulary *)

(** The documents of a collection, as the store holds them. *)
Definition stored (w : world) (coll : string) : list document :=
  match db w with
  | Some d => docs_of d coll
  | None => []
  end.

(** The calls the driver has received so far. *)
Definition driver_calls (w : world) : list call :=
  match db w with
  | Some d => calls d
  | None => []
  end.

(** A database is configured and the store answers. *)
Definition reachable (w : world) : Prop :=
  exists d, db w = Some d /\ fault d = None.

Definition is_insert (c : call) : bool :=
  match c with
  | InsertOne _ _ => true
  | _ => false
  end.

(** An exception other than [HTTPException]. *)
Definition plain (e : exn) : Prop := exists msg, e = Exception msg.

(** The stored [category] field is the text [c]. *)
Definition has_category (c : string) (x : document) : bool :=
  match fields x !! "category" with
  | Some (VStr s) => bool_decide (s = c)
  | _ => false
  end.

(** The text fields for which the view assembly passes no default. *)
Definition text_fields : list string :=
  ["title"; "founder_name"; "founder_email"; "description"].

Definition lacks_text_field (x : document) : Prop :=
  exists k, k ∈ text_fields /\ fields x !! k = None.

(** *** The views as a function of the two collections

    What the per-project step of [list_projects] and [get_project] amounts
    to on a reachable store: the total read under [key] from the donation
    collection, then the view of the document. *)
Section Views.
Context `{Libraries}.

Definition total_from (donations : list document) (key : string)
  : result float :=
  loop_total (group_totals key donations) 0%float.

Definition view_from (donations : list document) (key : string)
    (x : document) : result ProjectOut :=
  match total_from donations key with
  | Ok t => project_out (_id x) (fields x) t
  | Raise e => Raise e
  end.

Fixpoint views_from (donations docs : list document)
    (results : list ProjectOut) : result (list ProjectOut) :=
  match docs with
  | [] => Ok results
  | x :: rest =>
      match view_from donations (_id x) x with
      | Ok v => views_from donations rest (results ++ [v])
      | Raise e => Raise e
      end
  end.
End Views.

(** The generic [except] clause, on an outcome. *)
Definition to_500 {A} (r : result A) : result A :=
  match r with
  | Ok a => Ok a
  | Raise e => Raise (HTTPException 500 (str e))
  end.

(** ** [POST /api/projects] *)

Module schemas.

(** Modelled from the spec: the module [schemas] is not part of the
    sources.  A [Project] carries title, founder_name, founder_email,
    description and category (text), goal_amount (number) and featured
    (boolean). *)
Record Project := {
  title : string;
  founder_name : string;
  founder_email : string;
  description : string;
  category : string;
  goal_amount : float;
  featured : bool;
}.

End schemas.

(** The document [create_document] stores for a [Project]. *)
Definition model_dump_project (project : schemas.Project) : dict :=
  <["title" := VStr (schemas.title project)]>
  (<["founder_name" := VStr (schemas.founder_name project)]>
  (<["founder_email" := VStr (schemas.founder_email project)]>
  (<["description" := VStr (schemas.description project)]>
  (<["category" := VStr (schemas.category project)]>
  (<["goal_amount" := VFloat (schemas.goal_amount project)]>
  (<["featured" := VBool (schemas.featured project)]> ∅)))))).

Section Creation.
Context `{Libraries}.

(** [create_project]; the response [{"id": inserted_id}] is given by its
    one entry. *)
Definition create_project (project : schemas.Project) : M world string :=
  except_500
    (inserted_id <- create_document "project" (model_dump_project project) ;;
     ret inserted_id).

(** The database after [insert_one(data)] on collection [coll]. *)
Definition after_insert (coll : string) (data : dict) (d : Database)
  : Database :=
  {| name := name d;
     colls := <[coll := docs_of d coll
                        ++ [{| _id := new_ObjectId (issued d);
                               fields := data |}]]> (colls d);
     issued := S (issued d);
     fault := fault d;
     calls := calls d ++ [InsertOne coll data] |}.
End Creation.

(** A step of a handler that leaves every collection as it was. *)
Definition keeps {A} (m : M world A) : Prop :=
  forall w coll, stored (m w).2 coll = stored w coll.

(** The [amount] values of the donations stored under [key], in the
    store's order. *)
Definition amounts (key : string) (donations : list document) : list value :=
  omap (fun y => fields y !! "amount") (List.filter (refers_to key) donations).

(** The [featured] filter of a listing: absent, or the stored field is
    that boolean. *)
Definition featured_is (featured_ : option bool) (x : document) : bool :=
  match featured_ with
  | Some b => field_matches x "featured" (QBool b)
  | None => true
  end.

(** The fields of a view that must be text. *)
Definition str_fields : list string :=
  ["title"; "founder_name"; "founder_email"; "description"; "category"].

(** The number of characters of UTF-8 text: the bytes that start one. *)
Fixpoint chars (s : string) : nat :=
  match s with
  | EmptyString => 0
  | String a rest => (if is_continuation a then 0 else 1) + chars rest
  end.

(** A project as [POST /api/projects] receives it. *)
Definition moon_base : schemas.Project :=
  {| schemas.title := "Moon Base";
     schemas.founder_name := "E";
     schemas.founder_email := "e@x.com";
     schemas.description := "g";
     schemas.category := "Space";
     schemas.goal_amount := 2000;
     schemas.featured := true |}.

(** The database of the example store. *)
Definition store_db (projects donations : list document) : Database :=
  {| name := "moonshot";
     colls := <["project" := projects]> (<["donation" := donations]> ∅);
     issued := 0; fault := None; calls := [] |}.

(** The view of the example project with a given total. *)
Definition mars_rover_view (total : float) : ProjectOut :=
  {| id := Examples.P1; title := "Mars Rover"; founder_name := "A";
     founder_email := "a@x.com"; description := "d"; category := "Space";
     goal_amount := 1000; featured := false; total_donations := total |}.

(** ** Unfolding the monad *)

Ltac run :=
  unfold except_500, except_reraise_500, try_except, bind, ret, raise, lift,
    on_db, driver, in_world, setitem, global_db, getenv_DATABASE_URL;
  cbn [fst snd].

Lemma docs_of_log (c : call) (d : Database) (coll : string) :
  docs_of (log c d) coll = docs_of d coll.
Proof. reflexivity. Qed.

Lemma stored_log (d : Database) (c : call) (w : world) (coll : string) :
  stored (set_db (log c d) w) coll = docs_of d coll.
Proof. reflexivity. Qed.

Lemma find_none_iff (oid : string) (xs : list document) :
  List.find (fun x => bool_decide (_id x = oid)) xs = None <->
  forall x, x ∈ xs -> _id x <> oid.
Proof.
  induction xs as [|y ys IH]; cbn.
  - split; [intros _ x Hx; inversion Hx | reflexivity].
  - destruct (bool_decide_reflect (_id y = oid)) as [Heq|Hne].
    + split; [discriminate|].
      intros Hall. exfalso. apply (Hall y); [left | exact Heq].
    + rewrite IH. split.
      * intros Hall x Hx. inversion Hx; subst; auto.
      * intros Hall x Hx. apply Hall. now right.
Qed.

Lemma find_some_id (oid : string) (xs : list document) (x : document) :
  List.find (fun x => bool_decide (_id x = oid)) xs = Some x ->
  x ∈ xs /\ _id x = oid.
Proof.
  induction xs as [|y ys IH]; cbn; [discriminate|].
  destruct (bool_decide_reflect (_id y = oid)) as [Heq|Hne].
  - intros [= <-]. split; [left | exact Heq].
  - intros Hf. destruct (IH Hf) as [Hin Hid]. split; [now right | exact Hid].
Qed.

(** ** [get_project]: the identifier is not validated *)

(** C1. An id that [ObjectId] refuses makes [get_project] raise inside the
    [try] with a plain exception, which the generic clause turns into a 500:
    the answer is never the 400 that [create_donation] gives for the same
    id.  The store is not touched. *)
Theorem get_project_invalid_id_500 `{Libraries}
    (project_id_ : string) (w : world) (msg : string) :
  ObjectId project_id_ = inl msg ->
  exists detail_,
    get_project project_id_ w = (Raise (HTTPException 500 detail_), w) /\
    (db w <> None -> detail_ = msg).
Proof.
  intros Hbad. unfold get_project, get_project_try, find_project, ObjectId_.
  run. destruct (db w) as [d|] eqn:Hdb.
  - cbn. rewrite Hbad. cbn. exists msg. split; [|reflexivity].
    destruct w; cbn in *; subst; reflexivity.
  - cbn. exists not_subscriptable. split; [reflexivity | congruence].
Qed.

(** ** [create_donation] *)

(** C4. When [ObjectId] refuses the project_id, [create_donation] raises
    [HTTPException 400] and leaves the process state as it was: the driver
    receives no call at all, neither a lookup nor an insert. *)
Theorem create_donation_invalid_id_400 `{Libraries}
    (donation : Donation) (w : world) (msg : string) :
  ObjectId (project_id donation) = inl msg ->
  create_donation donation w =
    (Raise (HTTPException 400 "Invalid project_id"), w).
Proof.
  intros Hbad. unfold create_donation, create_donation_try, ObjectId_. run.
  rewrite Hbad. reflexivity.
Qed.

(** C3. When the project_id parses and no stored project carries that
    identifier, [create_donation] raises and inserts nothing: every
    collection is as before and the calls the driver received in between
    contain no insert.  On a reachable store the exception is
    [HTTPException 404 "Project not found"]. *)
Theorem create_donation_unknown_project_404 `{Libraries}
    (donation : Donation) (w : world) (oid : string) :
  ObjectId (project_id donation) = inr oid ->
  (forall x, x ∈ stored w "project" -> _id x <> oid) ->
  (reachable w ->
   (create_donation donation w).1 =
     Raise (HTTPException 404 "Project not found")) /\
  (exists e, (create_donation donation w).1 = Raise e) /\
  (forall coll,
     stored (create_donation donation w).2 coll = stored w coll) /\
  (exists new,
     driver_calls (create_donation donation w).2 = driver_calls w ++ new /\
     forallb (fun c => negb (is_insert c)) new = true).
Proof.
  intros Hoid Habsent. apply find_none_iff in Habsent.
  unfold create_donation, create_donation_try, find_project, ObjectId_,
    find_one, reachable, stored, driver_calls in *.
  run. rewrite Hoid. cbn.
  destruct (db w) as [d|] eqn:Hdb; cbn.
  - destruct (fault d) as [m|] eqn:Hf; cbn.
    + split; [intros (d' & [= <-] & Hnf); congruence|].
      split; [eauto|]. split; [reflexivity|].
      exists [FindOne "project" oid]. split; reflexivity.
    + rewrite docs_of_log, Habsent. cbn.
      split; [reflexivity|]. split; [eauto|]. split; [reflexivity|].
      exists [FindOne "project" oid]. split; reflexivity.
  - rewrite Hdb. cbn.
    split; [intros (d' & Hd & _); discriminate|].
    split; [eauto|]. split; [reflexivity|].
    exists []. split; reflexivity.
Qed.

(** *** What the epilogue does to each outcome *)

Lemma except_reraise_500_http {S A} (m : M S A) (s : S) (c : nat) (d : string) :
  (m s).1 = Raise (HTTPException c d) -> except_reraise_500 m s = m s.
Proof.
  unfold except_reraise_500, try_except, raise.
  destruct (m s) as [[a|[c' d'|msg]] s']; cbn; intros Hr;
    try discriminate; reflexivity.
Qed.

Lemma except_reraise_500_plain {S A} (m : M S A) (s : S) (msg : string) :
  (m s).1 = Raise (Exception msg) ->
  except_reraise_500 m s = (Raise (HTTPException 500 msg), (m s).2).
Proof.
  unfold except_reraise_500, try_except, raise.
  destruct (m s) as [[a|[c' d'|msg']] s']; cbn; intros Hr;
    try discriminate. now injection Hr as ->.
Qed.

Lemma except_reraise_500_ok {S A} (m : M S A) (s : S) (a : A) :
  (m s).1 = Ok a -> except_reraise_500 m s = m s.
Proof.
  unfold except_reraise_500, try_except, raise.
  destruct (m s) as [[a'|[c' d'|msg]] s']; cbn; intros Hr;
    try discriminate; reflexivity.
Qed.

(** *** Which exceptions the steps of a handler can raise *)

Lemma py_float_plain `{Libraries} (v : value) (e : exn) :
  py_float v = Raise e -> plain e.
Proof.
  destruct v as [|s|b|z|f]; unfold py_float.
  - intros [= <-]. eexists; reflexivity.
  - destruct (float_of_str s); intros [= <-]. eexists; reflexivity.
  - discriminate.
  - destruct (is_infinity (float_of_Z z)); [|discriminate].
    intros [= <-]. eexists; reflexivity.
  - discriminate.
Qed.

Lemma loop_total_plain `{Libraries} (donations : list dict) (total : float)
    (e : exn) :
  loop_total donations total = Raise e -> plain e.
Proof.
  revert total. induction donations as [|agg rest IH]; cbn; intros total.
  - discriminate.
  - destruct (py_float (get agg "total" (VInt 0))) as [t|e'] eqn:Hf.
    + apply IH.
    + intros [= <-]. eapply py_float_plain, Hf.
Qed.

Lemma ProjectOut_new_plain `{Libraries} id_ t fn fe de c g f td (e : exn) :
  ProjectOut_new id_ t fn fe de c g f td = Raise e -> plain e.
Proof.
  unfold ProjectOut_new.
  destruct (as_str t), (as_str fn), (as_str fe), (as_str de), (as_str c);
    try discriminate; intros [= <-]; eexists; reflexivity.
Qed.

Lemma project_out_plain `{Libraries} (id_ : string) (d : dict) (total : float)
    (e : exn) :
  project_out id_ d total = Raise e -> plain e.
Proof.
  unfold project_out.
  destruct (py_float (get d "goal_amount" (VInt 0))) as [g|e'] eqn:Hf.
  - apply ProjectOut_new_plain.
  - intros [= <-]. eapply py_float_plain, Hf.
Qed.

Lemma on_db_driver_plain {A} (msg : string) (c : call)
    (run : Database -> A * Database) (w : world) (e : exn) :
  (on_db msg (driver c run) w).1 = Raise e -> plain e.
Proof.
  unfold on_db, driver. destruct (db w) as [d|]; cbn.
  - destruct (fault d); cbn.
    + intros [= <-]. eexists; reflexivity.
    + destruct (run (log c d)); cbn. discriminate.
  - intros [= <-]. eexists; reflexivity.
Qed.

Lemma find_project_plain `{Libraries} (s : string) (w : world) (e : exn) :
  (find_project s w).1 = Raise e -> plain e.
Proof.
  unfold find_project, ObjectId_, find_one. run.
  destruct (db w) as [d|] eqn:Hdb; cbn.
  - destruct (ObjectId s) as [msg|oid]; cbn.
    + intros [= <-]. eexists; reflexivity.
    + destruct (fault d); cbn; [|discriminate].
      intros [= <-]. eexists; reflexivity.
  - intros [= <-]. eexists; reflexivity.
Qed.

Lemma donations_total_plain `{Libraries} (pid : string) (w : world) (e : exn) :
  (donations_total pid w).1 = Raise e -> plain e.
Proof.
  unfold donations_total, bind, lift.
  destruct (on_db not_subscriptable (aggregate "donation" pid) w)
    as [[gs|e'] w'] eqn:Hagg.
  - cbn. apply loop_total_plain.
  - cbn. intros [= <-].
    apply (on_db_driver_plain not_subscriptable (Aggregate "donation" pid)
             (fun d => (group_totals pid (docs_of d "donation"), d)) w).
    unfold aggregate in Hagg. now rewrite Hagg.
Qed.

(** ** The epilogue of [create_donation] and [get_project] *)

(** C10. An [HTTPException] raised inside the [try] of [create_donation] or
    of [get_project] leaves the handler as it was raised, status and detail
    unchanged; inside [create_donation] it is the 400 or the 404, inside
    [get_project] the 404.  The generic clause, which makes a 500, only
    ever receives other exceptions. *)
Theorem client_errors_reraised `{Libraries}
    (donation : Donation) (project_id_ : string) (w : world)
    (c : nat) (d : string) :
  ((create_donation_try donation w).1 = Raise (HTTPException c d) ->
   (c = 400 \/ c = 404) /\
   create_donation donation w = create_donation_try donation w) /\
  ((get_project_try project_id_ w).1 = Raise (HTTPException c d) ->
   c = 404 /\
   get_project project_id_ w = get_project_try project_id_ w).
Proof.
  split; intros Hraised.
  - split; [|eapply except_reraise_500_http, Hraised].
    revert Hraised. unfold create_donation_try, ObjectId_, bind, try_except.
    destruct (ObjectId (project_id donation)) as [msg|oid]; cbn.
    + intros [= <- _]. now left.
    + destruct (find_project (project_id donation) w) as [[[x|]|e] w'] eqn:Hf;
        cbn.
      * intros Hc.
        apply (on_db_driver_plain store_unavailable
                 (InsertOne "donation" (model_dump donation))) in Hc.
        destruct Hc as [? [=]].
      * intros [= <- _]. now right.
      * intros [= ->].
        assert (Hp : plain (HTTPException c d))
          by (apply (find_project_plain (project_id donation) w);
              now rewrite Hf).
        destruct Hp as [? [=]].
  - split; [|eapply except_reraise_500_http, Hraised].
    revert Hraised. unfold get_project_try, bind.
    destruct (find_project project_id_ w) as [[[x|]|e] w'] eqn:Hf; cbn.
    + destruct (donations_total project_id_ w') as [[t|e] w''] eqn:Ht; cbn.
      * unfold lift; cbn. intros Hc. apply project_out_plain in Hc.
        destruct Hc as [? [=]].
      * intros [= ->].
        assert (Hp : plain (HTTPException c d))
          by (apply (donations_total_plain project_id_ w'); now rewrite Ht).
        destruct Hp as [? [=]].
    + intros [= <- _]. reflexivity.
    + intros [= ->].
      assert (Hp : plain (HTTPException c d))
        by (apply (find_project_plain project_id_ w); now rewrite Hf).
      destruct Hp as [? [=]].
Qed.

(** ** [GET /test] *)

(** C7. [test_database] returns a response in every process state and
    never raises.  Without a database the response says so; when the store
    refuses [list_collection_names] the text of the exception, cut to 50
    characters, goes into the [database] entry; otherwise the first ten
    collection names, in the order the store lists them, are reported. *)
Theorem test_database_never_raises `{Libraries} (w : world) :
  exists r w',
    test_database w = (Ok r, w') /\
    backend r = "✅ Running" /\
    match db w with
    | None => database r = "⚠️  Available but not initialized"
    | Some d =>
        connection_status r = "Connected" /\
        match fault d with
        | Some msg =>
            database r = "⚠️  Connected but Error: " +:+ slice_to 50 msg
        | None =>
            database r = "✅ Connected & Working" /\
            collections r = take 10 (collection_names (colls d))
        end
    end.
Proof.
  unfold test_database, test_database_try, list_collection_names. run.
  destruct (db w) as [d|] eqn:Hdb; cbn [fst snd].
  - rewrite Hdb. cbn [fst snd log fault]. destruct (fault d) as [msg|] eqn:Hf.
    + do 2 eexists. repeat split.
    + do 2 eexists. repeat split.
  - do 2 eexists. repeat split.
Qed.

(** ** The handlers on a reachable store *)

Lemma donations_total_reachable `{Libraries} (key : string) (w : world)
    (d : Database) :
  db w = Some d -> fault d = None ->
  donations_total key w =
    (total_from (docs_of d "donation") key,
     set_db (log (Aggregate "donation" key) d) w).
Proof.
  intros Hdb Hf. unfold donations_total, aggregate, total_from. run.
  rewrite Hdb. cbn. rewrite Hf. cbn.
  destruct (loop_total _ _); reflexivity.
Qed.

Lemma list_item_reachable `{Libraries} (x : document) (w : world)
    (d : Database) :
  db w = Some d -> fault d = None ->
  list_item x w =
    (view_from (docs_of d "donation") (_id x) x,
     set_db (log (Aggregate "donation" (_id x)) d) w).
Proof.
  intros Hdb Hf. unfold list_item, bind, lift, view_from.
  rewrite (donations_total_reachable _ _ _ Hdb Hf).
  destruct (total_from _ _); reflexivity.
Qed.

Lemma for_docs_reachable `{Libraries} (docs : list document) :
  forall (results : list ProjectOut) (w : world) (d : Database),
    db w = Some d -> fault d = None ->
    (for_docs docs results w).1 =
      views_from (docs_of d "donation") docs results.
Proof.
  induction docs as [|x rest IH]; intros results w d Hdb Hf; cbn.
  - reflexivity.
  - unfold bind. rewrite (list_item_reachable _ _ _ Hdb Hf).
    destruct (view_from _ _ _) as [v|e]; [|reflexivity].
    apply (IH _ _ (log (Aggregate "donation" (_id x)) d)); [reflexivity|exact Hf].
Qed.

Lemma list_projects_reachable `{Libraries} (category_ : option string)
    (featured_ : option bool) (w : world) (d : Database) :
  db w = Some d -> fault d = None ->
  (list_projects category_ featured_ w).1 =
    to_500 (views_from (docs_of d "donation")
              (List.filter (matches (filter_dict category_ featured_))
                 (docs_of d "project")) []).
Proof.
  intros Hdb Hf. unfold list_projects, get_documents. run.
  rewrite Hdb. cbn. rewrite Hf. cbn.
  pose proof (for_docs_reachable
    (List.filter (matches (filter_dict category_ featured_))
       (docs_of d "project")) []
    (set_db (log (Find "project" (filter_dict category_ featured_)) d) w)
    (log (Find "project" (filter_dict category_ featured_)) d)
    eq_refl Hf) as Hfor.
  rewrite docs_of_log in Hfor.
  destruct (for_docs _ _ _) as [r w']. cbn in Hfor. subst r.
  destruct (views_from _ _ _); reflexivity.
Qed.

Lemma list_projects_unreachable `{Libraries} (category_ : option string)
    (featured_ : option bool) (w : world) :
  ~ reachable w ->
  exists detail_,
    (list_projects category_ featured_ w).1 =
      Raise (HTTPException 500 detail_).
Proof.
  intros Hno. unfold list_projects, get_documents. run.
  destruct (db w) as [d|] eqn:Hdb; cbn.
  - destruct (fault d) as [msg|] eqn:Hf; cbn; [eauto|].
    exfalso. apply Hno. exists d. auto.
  - eauto.
Qed.

(** ** The views *)

Lemma project_out_ok `{Libraries} (id_ : string) (d : dict) (total : float)
    (v : ProjectOut) :
  project_out id_ d total = Ok v ->
  id v = id_ /\ total_donations v = total /\
  as_str (get d "title" VNone) = Some (title v) /\
  as_str (get d "founder_name" VNone) = Some (founder_name v) /\
  as_str (get d "founder_email" VNone) = Some (founder_email v) /\
  as_str (get d "description" VNone) = Some (description v) /\
  as_str (get d "category" (VStr "AI")) = Some (category v) /\
  py_float (get d "goal_amount" (VInt 0)) = Ok (goal_amount v) /\
  featured v = py_bool (get d "featured" (VBool false)).
Proof.
  unfold project_out, ProjectOut_new.
  destruct (py_float (get d "goal_amount" (VInt 0))) as [g|e]; [|discriminate].
  destruct (as_str (get d "title" VNone)); [|discriminate].
  destruct (as_str (get d "founder_name" VNone)); [|discriminate].
  destruct (as_str (get d "founder_email" VNone)); [|discriminate].
  destruct (as_str (get d "description" VNone)); [|discriminate].
  destruct (as_str (get d "category" (VStr "AI"))); [|discriminate].
  intros [= <-]. cbn. repeat split.
Qed.

Lemma project_out_lacking `{Libraries} (id_ : string) (d : dict)
    (total : float) (k : string) :
  k ∈ text_fields -> d !! k = None ->
  exists msg, project_out id_ d total = Raise (Exception msg).
Proof.
  intros Hk Hnone. unfold project_out.
  destruct (py_float (get d "goal_amount" (VInt 0))) as [g|e] eqn:Hg.
  - unfold ProjectOut_new, text_fields in *.
    assert (Hget : as_str (get d k VNone) = None)
      by (unfold get; rewrite Hnone; reflexivity).
    repeat (apply elem_of_cons in Hk as [->|Hk];
            [rewrite Hget;
             repeat match goal with
                    | |- context [match as_str ?v with _ => _ end] =>
                        destruct (as_str v)
                    end; eexists; reflexivity|]).
    inversion Hk.
  - destruct (py_float_plain _ _ Hg) as [msg ->]. eauto.
Qed.

Lemma total_from_none `{Libraries} (donations : list document) (key : string) :
  (forall x, x ∈ donations -> refers_to key x = false) ->
  total_from donations key = Ok 0%float.
Proof.
  intros Hnone. unfold total_from, group_totals.
  replace (List.filter (refers_to key) donations) with (@nil document);
    [reflexivity|].
  symmetry. induction donations as [|y ys IH]; cbn; [reflexivity|].
  rewrite (Hnone y) by left. apply IH. intros x Hx. apply Hnone. now right.
Qed.

(** What the total is when some donation matches: [float] of the one
    group's [$sum] over the [amount] fields of the matching donations, in
    the store's order. *)
Lemma total_from_matching `{Libraries} (donations : list document)
    (key : string) (y : document) (ys : list document) :
  List.filter (refers_to key) donations = y :: ys ->
  total_from donations key =
    py_float (sum_values (omap (fun x => fields x !! "amount") (y :: ys))).
Proof.
  intros Hm. unfold total_from, group_totals. rewrite Hm.
  cbn [loop_total]. unfold get.
  rewrite lookup_insert_ne by discriminate. rewrite lookup_insert_eq.
  destruct (py_float _); reflexivity.
Qed.

Lemma views_from_ok `{Libraries} (donations docs : list document) :
  forall (results vs : list ProjectOut),
    views_from donations docs results = Ok vs <->
    exists vs',
      vs = results ++ vs' /\
      Forall2 (fun x v => view_from donations (_id x) x = Ok v) docs vs'.
Proof.
  induction docs as [|x rest IH]; intros results vs; cbn.
  - split.
    + intros [= <-]. exists []. split; [now rewrite app_nil_r|constructor].
    + intros (vs' & -> & Hall). inversion Hall. now rewrite app_nil_r.
  - destruct (view_from donations (_id x) x) as [v|e] eqn:Hv.
    + rewrite IH. split.
      * intros (vs' & -> & Hall). exists (v :: vs'). split.
        -- now rewrite <- app_assoc.
        -- now constructor.
      * intros (vs' & -> & Hall). inversion Hall as [|? v' ? vs'' Hx Hrest];
          subst. rewrite Hv in Hx. injection Hx as <-.
        exists vs''. split; [now rewrite <- app_assoc|exact Hrest].
    + split; [discriminate|].
      intros (vs' & -> & Hall). inversion Hall as [|? v' ? vs'' Hx Hrest];
        subst. rewrite Hv in Hx. discriminate.
Qed.

Lemma views_from_raise `{Libraries} (donations docs : list document)
    (x : document) :
  x ∈ docs ->
  (forall v, view_from donations (_id x) x <> Ok v) ->
  forall results, exists e, views_from donations docs results = Raise e.
Proof.
  intros Hin Hbad. induction docs as [|y rest IH]; intros results.
  - inversion Hin.
  - cbn. destruct (view_from donations (_id y) y) as [v|e] eqn:Hv; [|eauto].
    apply elem_of_cons in Hin as [->|Hin].
    + exfalso. eapply Hbad, Hv.
    + apply IH, Hin.
Qed.

Lemma view_from_lacking `{Libraries} (donations : list document)
    (key : string) (x : document) :
  lacks_text_field x ->
  exists e, view_from donations key x = Raise e.
Proof.
  intros (k & Hk & Hnone). unfold view_from.
  destruct (total_from donations key) as [t|e]; [|eauto].
  destruct (project_out_lacking (_id x) (fields x) t k Hk Hnone) as [msg ->].
  eauto.
Qed.

Lemma list_projects_ok_reachable `{Libraries} (category_ : option string)
    (featured_ : option bool) (w : world) (vs : list ProjectOut) :
  (list_projects category_ featured_ w).1 = Ok vs -> reachable w.
Proof.
  intros Hok. destruct (db w) as [d|] eqn:Hdb.
  - destruct (fault d) as [msg|] eqn:Hf.
    + destruct (list_projects_unreachable category_ featured_ w) as [x Hx].
      * intros (d' & Hd' & Hf'). congruence.
      * congruence.
    + exists d. auto.
  - destruct (list_projects_unreachable category_ featured_ w) as [x Hx].
    + intros (d' & Hd' & Hf'). congruence.
    + congruence.
Qed.

Lemma view_from_plain `{Libraries} (donations : list document) (key : string)
    (x : document) (e : exn) :
  view_from donations key x = Raise e -> plain e.
Proof.
  unfold view_from, total_from.
  destruct (loop_total _ _) as [t|e'] eqn:Ht.
  - apply project_out_plain.
  - intros [= <-]. eapply loop_total_plain, Ht.
Qed.

Lemma get_project_reachable `{Libraries} (project_id_ : string) (w : world)
    (d : Database) :
  db w = Some d -> fault d = None ->
  (get_project project_id_ w).1 =
    match ObjectId project_id_ with
    | inl msg => Raise (HTTPException 500 msg)
    | inr oid =>
        match List.find (fun x => bool_decide (_id x = oid))
                (docs_of d "project") with
        | None => Raise (HTTPException 404 "Project not found")
        | Some x => to_500 (view_from (docs_of d "donation") project_id_ x)
        end
    end.
Proof.
  intros Hdb Hf.
  unfold get_project, get_project_try, find_project, find_one, ObjectId_.
  run. rewrite Hdb. cbn.
  destruct (ObjectId project_id_) as [msg|oid]; cbn; [reflexivity|].
  rewrite Hf. cbn. rewrite docs_of_log.
  destruct (List.find _ _) as [x|]; cbn; [|reflexivity].
  rewrite (donations_total_reachable project_id_
             (set_db (log (FindOne "project" oid) d) (set_db d w))
             (log (FindOne "project" oid) d) eq_refl Hf).
  rewrite docs_of_log. unfold view_from.
  destruct (total_from _ _) as [t|e] eqn:Ht; cbn.
  - destruct (project_out _ _ _) as [v|e] eqn:Hv; cbn; [reflexivity|].
    destruct (project_out_plain _ _ _ _ Hv) as [msg ->]. reflexivity.
  - unfold total_from in Ht.
    destruct (loop_total_plain _ _ _ Ht) as [msg ->]. reflexivity.
Qed.

Lemma get_project_unreachable `{Libraries} (project_id_ : string) (w : world) :
  ~ reachable w ->
  exists detail_,
    (get_project project_id_ w).1 = Raise (HTTPException 500 detail_).
Proof.
  intros Hno.
  unfold get_project, get_project_try, find_project, find_one, ObjectId_.
  run. destruct (db w) as [d|] eqn:Hdb; cbn; [|eauto].
  destruct (ObjectId project_id_) as [msg|oid]; cbn; [eauto|].
  destruct (fault d) as [msg|] eqn:Hf; cbn; [eauto|].
  exfalso. apply Hno. exists d. auto.
Qed.

Lemma Forall2_elem_of_r {A B} (R : A -> B -> Prop) (xs : list A)
    (ys : list B) (y : B) :
  Forall2 R xs ys -> y ∈ ys -> exists x, x ∈ xs /\ R x y.
Proof.
  induction 1 as [|x y' xs ys Hxy Hall IH]; intros Hin.
  - inversion Hin.
  - apply elem_of_cons in Hin as [->|Hin].
    + exists x. split; [left|exact Hxy].
    + destruct (IH Hin) as (x' & Hx' & HR). exists x'. split; [now right|exact HR].
Qed.

(** ** Totals *)

(** With no donation stored under the key a handler reads the total
    under, the total is the float 0.0: [list_projects] reads it under the
    identifier the view shows, [get_project] under the id it was asked
    for. *)
Theorem total_donations_zero `{Libraries} (category_ : option string)
    (featured_ : option bool) (project_id_ : string) (w : world) :
  (forall vs v,
     (list_projects category_ featured_ w).1 = Ok vs -> v ∈ vs ->
     (forall x, x ∈ stored w "donation" -> refers_to (id v) x = false) ->
     total_donations v = 0%float) /\
  (forall v,
     (get_project project_id_ w).1 = Ok v ->
     (forall x, x ∈ stored w "donation" -> refers_to project_id_ x = false) ->
     total_donations v = 0%float).
Proof.
  split.
  - intros vs v Hok Hin Hnone.
    destruct (list_projects_ok_reachable _ _ _ _ Hok) as (d & Hdb & Hf).
    rewrite (list_projects_reachable _ _ _ _ Hdb Hf) in Hok.
    unfold stored in Hnone. rewrite Hdb in Hnone.
    destruct (views_from _ _ _) as [vs0|e] eqn:Hviews; [|discriminate].
    injection Hok as ->.
    apply views_from_ok in Hviews as (vs' & -> & Hall).
    destruct (Forall2_elem_of_r _ _ _ _ Hall Hin) as (x & _ & Hview).
    unfold view_from in Hview.
    destruct (total_from _ _) as [t|e] eqn:Ht; [|discriminate].
    apply project_out_ok in Hview as (Hid & Htot & _).
    rewrite <- Hid in Ht. rewrite (total_from_none _ _ Hnone) in Ht.
    congruence.
  - intros v Hok Hnone.
    destruct (db w) as [d|] eqn:Hdb.
    2:{ destruct (get_project_unreachable project_id_ w) as [x Hx];
          [intros (d & Hd & _); congruence | congruence]. }
    destruct (fault d) as [msg|] eqn:Hf.
    1:{ destruct (get_project_unreachable project_id_ w) as [x Hx];
          [intros (d' & Hd & Hf'); congruence | congruence]. }
    rewrite (get_project_reachable _ _ _ Hdb Hf) in Hok.
    unfold stored in Hnone. rewrite Hdb in Hnone.
    destruct (ObjectId project_id_) as [msg|oid]; [discriminate|].
    destruct (List.find _ _) as [x|]; [|discriminate].
    unfold view_from in Hok. rewrite (total_from_none _ _ Hnone) in Hok.
    destruct (project_out _ _ _) as [v'|e] eqn:Hv; [|discriminate].
    injection Hok as ->. apply project_out_ok in Hv as (_ & Htot & _).
    exact Htot.
Qed.

(** ** [list_projects] with a category *)

Lemma matches_category `{Libraries} (c : string) (x : document) :
  c <> "" -> matches (filter_dict (Some c) None) x = has_category c x.
Proof.
  intros Hc. unfold matches, filter_dict.
  rewrite bool_decide_eq_false_2 by exact Hc.
  rewrite insert_empty, map_to_list_singleton. cbn.
  unfold field_matches, has_category.
  destruct (fields x !! "category") as [[|s|b|z|f]|]; cbn;
    try reflexivity. apply andb_true_r.
Qed.

Lemma Forall2_with_l {A B} (R : A -> B -> Prop) (P : A -> Prop)
    (xs : list A) (ys : list B) :
  Forall2 R xs ys -> Forall P xs -> Forall2 (fun x y => R x y /\ P x) xs ys.
Proof.
  induction 1 as [|x y xs ys Hxy Hall IH]; intros HP.
  - constructor.
  - inversion HP; subst. constructor; auto.
Qed.

(** ** Documents without a text field *)

(** C8 (amended). A stored project document that lacks title,
    founder_name, founder_email or description makes [list_projects] answer
    500 whenever the filter of the call selects that document, and makes
    [get_project] answer 500 when it is the document the id resolves to: no
    default stands in for such a field.  A document that has the four text
    fields and lacks category, goal_amount and featured gets the view with
    "AI", 0.0 and [False]. *)
Theorem missing_text_field_500 `{Libraries} (category_ : option string)
    (featured_ : option bool) (project_id_ oid : string) (w : world) :
  (forall x,
     lacks_text_field x ->
     (x ∈ stored w "project" ->
      matches (filter_dict category_ featured_) x = true ->
      exists detail_,
        (list_projects category_ featured_ w).1 =
          Raise (HTTPException 500 detail_)) /\
     (ObjectId project_id_ = inr oid ->
      List.find (fun y => bool_decide (_id y = oid)) (stored w "project")
        = Some x ->
      exists detail_,
        (get_project project_id_ w).1 = Raise (HTTPException 500 detail_))) /\
  (forall id_ d total t fn fe de,
     d !! "title" = Some (VStr t) ->
     d !! "founder_name" = Some (VStr fn) ->
     d !! "founder_email" = Some (VStr fe) ->
     d !! "description" = Some (VStr de) ->
     d !! "category" = None ->
     d !! "goal_amount" = None ->
     d !! "featured" = None ->
     project_out id_ d total =
       Ok {| id := id_; title := t; founder_name := fn; founder_email := fe;
             description := de; category := "AI"; goal_amount := 0%float;
             featured := false; total_donations := total |}).
Proof.
  split.
  - intros x Hlacks.
    assert (Hdec : reachable w \/ ~ reachable w).
    { unfold reachable. destruct (db w) as [d|].
      - destruct (fault d) as [msg|] eqn:Hf.
        + right. intros (d' & [= <-] & Hf'). congruence.
        + left. eauto.
      - right. intros (d' & [=] & _). }
    split.
    + intros Hin Hsel. destruct Hdec as [(d & Hdb & Hf)|Hno].
      * rewrite (list_projects_reachable _ _ _ _ Hdb Hf).
        unfold stored in Hin. rewrite Hdb in Hin.
        destruct (views_from_raise (docs_of d "donation")
                    (List.filter (matches (filter_dict category_ featured_))
                       (docs_of d "project")) x) with (results := @nil ProjectOut)
          as [e He].
        -- apply list_elem_of_In, filter_In. split; [|exact Hsel].
           now apply list_elem_of_In.
        -- intros v Hv.
           destruct (view_from_lacking (docs_of d "donation") (_id x) x Hlacks)
             as [e He]. congruence.
        -- rewrite He. cbn. eauto.
      * now apply list_projects_unreachable.
    + intros Hoid Hfind. destruct Hdec as [(d & Hdb & Hf)|Hno].
      * rewrite (get_project_reachable _ _ _ Hdb Hf), Hoid.
        unfold stored in Hfind. rewrite Hdb in Hfind. rewrite Hfind.
        destruct (view_from_lacking (docs_of d "donation") project_id_ x Hlacks)
          as [e ->]. cbn. eauto.
      * now apply get_project_unreachable.
  - intros id_ d total t fn fe de Ht Hfn Hfe Hde Hc Hg Hfeat.
    unfold project_out, ProjectOut_new, get.
    rewrite Ht, Hfn, Hfe, Hde, Hc, Hg, Hfeat. reflexivity.
Qed.

(** * The handlers run on concrete requests *)

Import Examples.

(** [GET /api/projects/not-a-valid-id] answers 500. *)
Lemma get_project_invalid_id_500_run :
  ObjectId (Libraries := Reference.libraries) "not-a-valid-id" =
    inl "'not-a-valid-id' is not a valid ObjectId, it must be a 12-byte input or a 24-character hex string" /\
  exists detail_,
    get_project (H := Reference.libraries) "not-a-valid-id"
      (store [mars_rover] []) =
      (Raise (HTTPException 500 detail_), store [mars_rover] []) /\
    (db (store [mars_rover] []) <> None ->
     detail_ = "'not-a-valid-id' is not a valid ObjectId, it must be a 12-byte input or a 24-character hex string").
Proof.
  split; [reflexivity|].
  apply (get_project_invalid_id_500 (H := Reference.libraries)
           "not-a-valid-id" (store [mars_rover] [])).
  reflexivity.
Defined.

(** [POST /api/donations] with project_id "not-a-valid-id" answers 400 and
    the store is as before. *)
Lemma create_donation_invalid_id_400_run :
  ObjectId (Libraries := Reference.libraries)
    (project_id (gift "not-a-valid-id" 250)) =
    inl "'not-a-valid-id' is not a valid ObjectId, it must be a 12-byte input or a 24-character hex string" /\
  create_donation (H := Reference.libraries) (gift "not-a-valid-id" 250)
    (store [mars_rover] []) =
    (Raise (HTTPException 400 "Invalid project_id"), store [mars_rover] []).
Proof.
  split; [reflexivity|].
  apply (create_donation_invalid_id_400 (H := Reference.libraries)
           (gift "not-a-valid-id" 250) (store [mars_rover] [])
           "'not-a-valid-id' is not a valid ObjectId, it must be a 12-byte input or a 24-character hex string").
  reflexivity.
Defined.

Lemma only_mars_rover (x : document) :
  x ∈ stored (store [mars_rover] []) "project" -> x = mars_rover.
Proof.
  change (stored (store [mars_rover] []) "project") with [mars_rover].
  intros Hx. now apply list_elem_of_singleton in Hx.
Defined.

(** [POST /api/donations] with a well-formed id that no project carries
    answers 404 and inserts nothing. *)
Lemma create_donation_unknown_project_404_run :
  (create_donation (H := Reference.libraries)
     (gift "507f1f77bcf86cd799439099" 250) (store [mars_rover] [])).1 =
    Raise (HTTPException 404 "Project not found") /\
  (forall coll,
     stored (create_donation (H := Reference.libraries)
               (gift "507f1f77bcf86cd799439099" 250)
               (store [mars_rover] [])).2 coll =
     stored (store [mars_rover] []) coll).
Proof.
  destruct (create_donation_unknown_project_404 (H := Reference.libraries)
              (gift "507f1f77bcf86cd799439099" 250) (store [mars_rover] [])
              "507f1f77bcf86cd799439099") as (H404 & _ & Hsame & _).
  - reflexivity.
  - intros x Hx. apply only_mars_rover in Hx. subst x. discriminate.
  - split; [|exact Hsame]. apply H404. eexists. split; reflexivity.
Defined.

(** C2 (as stated, refuted). The project [unlabelled] is stored without a
    category: listed without a filter its view shows category "AI", yet the
    listing for category "AI" does not contain it. *)
Lemma unlabelled_project_not_listed_under_AI :
  fields unlabelled !! "category" = None /\
  (exists v,
     (list_projects (H := Reference.libraries) None None
        (store [unlabelled] [])).1 = Ok [v] /\
     id v = _id unlabelled /\ category v = "AI") /\
  (list_projects (H := Reference.libraries) (Some "AI") None
     (store [unlabelled] [])).1 = Ok [].
Proof.
  split; [reflexivity|]. split; [|reflexivity].
  eexists. split; [reflexivity|]. split; reflexivity.
Qed.

(** C8 (as stated, refuted). The project [untitled] is stored without a
    title; the listing for category "AI" does not select it and answers
    with an empty list, not with a 500. *)
Lemma untitled_project_outside_the_filter :
  lacks_text_field untitled /\
  untitled ∈ stored (store [untitled] []) "project" /\
  (list_projects (H := Reference.libraries) (Some "AI") None
     (store [untitled] [])).1 = Ok [].
Proof.
  split; [|split].
  - exists "title". split; [left|reflexivity].
  - left.
  - reflexivity.
Qed.

(** C6. A donation of 250 was accepted for project [P1].  [list_projects]
    and [get_project] asked with the identifier in lower case report
    [total_donations = 250.0]; [get_project] asked with the same identifier
    in upper case finds the same project and reports 0.0, because it
    matches the donations against the text of the request and not against
    the identifier of the project it found. *)
Theorem get_project_total_follows_request_text :
  stored funded "donation" =
    [{| _id := "000000000000000000000000";
        fields := model_dump (gift P1 250) |}] /\
  (exists v,
     (list_projects (H := Reference.libraries) None None funded).1 = Ok [v] /\
     id v = P1 /\ total_donations v = 250%float) /\
  (exists v,
     (get_project (H := Reference.libraries) P1 funded).1 = Ok v /\
     id v = P1 /\ total_donations v = 250%float) /\
  (exists v,
     (get_project (H := Reference.libraries) P1_upper funded).1 = Ok v /\
     id v = P1 /\ total_donations v = 0%float).
Proof.
  split; [reflexivity|].
  repeat split; eexists; (split; [reflexivity|]); split; reflexivity.
Qed.

(** The same store after a second donation, of 100, sent with the
    identifier in upper case: it is accepted, since the identifier resolves
    to [P1], and no listing counts it. *)
Lemma donation_under_other_spelling_not_counted :
  exists w',
    create_donation (H := Reference.libraries) (gift P1_upper 100) funded =
      (Ok "000000000000000000000001", w') /\
    (exists v,
       (list_projects (H := Reference.libraries) None None w').1 = Ok [v] /\
       id v = P1 /\ total_donations v = 250%float) /\
    (exists v,
       (get_project (H := Reference.libraries) P1_upper w').1 = Ok v /\
       id v = P1 /\ total_donations v = 100%float).
Proof.
  eexists. split; [reflexivity|].
  split; eexists; (split; [reflexivity|]); split; reflexivity.
Qed.

(** A project without donations shows 0.0 in the listing and by id. *)
Lemma total_donations_zero_run :
  (exists v,
     (list_projects (H := Reference.libraries) None None
        (store [mars_rover] [])).1 = Ok [v] /\
     total_donations v = 0%float) /\
  (exists v,
     (get_project (H := Reference.libraries) P1 (store [mars_rover] [])).1
       = Ok v /\
     total_donations v = 0%float).
Proof.
  destruct (total_donations_zero (H := Reference.libraries) None None P1
              (store [mars_rover] [])) as [Hlist Hget].
  split; eexists; (split; [reflexivity|]).
  - eapply Hlist; [reflexivity|left|].
    intros x Hx. inversion Hx.
  - eapply Hget; [reflexivity|].
    intros x Hx. inversion Hx.
Defined.

(** * Further properties of the handlers *)

(** ** Which steps leave the collections alone *)

Lemma keeps_ret {A} (a : A) : keeps (ret a).
Proof. intros w coll. reflexivity. Qed.

Lemma keeps_raise {A} (e : exn) : keeps (raise (A := A) e).
Proof. intros w coll. reflexivity. Qed.

Lemma keeps_lift {A} (r : result A) : keeps (lift r).
Proof. intros w coll. reflexivity. Qed.

Lemma keeps_bind {A B} (m : M world A) (k : A -> M world B) :
  keeps m -> (forall a, keeps (k a)) -> keeps (bind m k).
Proof.
  intros Hm Hk w coll. unfold bind. specialize (Hm w coll).
  destruct (m w) as [[a|e] w1]; cbn in *.
  - now rewrite (Hk a w1 coll).
  - exact Hm.
Qed.

Lemma keeps_try_except {A} (m : M world A) (h : exn -> M world A) :
  keeps m -> (forall e, keeps (h e)) -> keeps (try_except m h).
Proof.
  intros Hm Hh w coll. unfold try_except. specialize (Hm w coll).
  destruct (m w) as [[a|e] w1]; cbn in *.
  - exact Hm.
  - now rewrite (Hh e w1 coll).
Qed.

(** A driver call whose [run] returns the database it was given. *)
Lemma keeps_query {A} (msg : string) (c : call) (f : Database -> A) :
  keeps (on_db msg (driver c (fun d => (f d, d)))).
Proof.
  intros w coll. unfold on_db, driver, stored.
  destruct (db w) as [d|] eqn:Hdb; cbn; [|now rewrite Hdb].
  destruct (fault d); reflexivity.
Qed.

Lemma keeps_except_500 {A} (m : M world A) : keeps m -> keeps (except_500 m).
Proof. intros Hm. apply keeps_try_except; [exact Hm|]. intros e. apply keeps_raise. Qed.

Lemma keeps_except_reraise_500 {A} (m : M world A) :
  keeps m -> keeps (except_reraise_500 m).
Proof.
  intros Hm. apply keeps_try_except; [exact Hm|].
  intros [c d|msg]; apply keeps_raise.
Qed.

Lemma keeps_donations_total `{Libraries} (key : string) :
  keeps (donations_total key).
Proof.
  unfold donations_total. apply keeps_bind.
  - apply (keeps_query not_subscriptable (Aggregate "donation" key)
             (fun d => group_totals key (docs_of d "donation"))).
  - intros gs. apply keeps_lift.
Qed.

Lemma keeps_for_docs `{Libraries} (docs : list document) :
  forall results, keeps (for_docs docs results).
Proof.
  induction docs as [|x rest IH]; intros results; cbn.
  - apply keeps_ret.
  - apply keeps_bind; [|intros v; apply IH].
    unfold list_item. apply keeps_bind; [apply keeps_donations_total|].
    intros t. apply keeps_lift.
Qed.

Lemma keeps_find_project `{Libraries} (s : string) : keeps (find_project s).
Proof.
  unfold find_project. apply keeps_bind.
  - intros w coll. unfold on_db, ret, stored.
    destruct (db w) as [d|] eqn:Hdb; cbn; [reflexivity|now rewrite Hdb].
  - intros _. apply keeps_bind.
    + unfold ObjectId_. destruct (ObjectId s); [apply keeps_raise|apply keeps_ret].
    + intros oid.
      apply (keeps_query not_subscriptable (FindOne "project" oid)
               (fun d => List.find (fun x => bool_decide (_id x = oid))
                           (docs_of d "project"))).
Qed.

Lemma keeps_list_projects `{Libraries} (category_ : option string)
    (featured_ : option bool) :
  keeps (list_projects category_ featured_).
Proof.
  unfold list_projects. apply keeps_except_500, keeps_bind.
  - apply (keeps_query store_unavailable
             (Find "project" (filter_dict category_ featured_))
             (fun d => List.filter (matches (filter_dict category_ featured_))
                         (docs_of d "project"))).
  - intros docs. apply keeps_for_docs.
Qed.

Lemma keeps_get_project `{Libraries} (project_id_ : string) :
  keeps (get_project project_id_).
Proof.
  unfold get_project, get_project_try.
  apply keeps_except_reraise_500, keeps_bind; [apply keeps_find_project|].
  intros [x|]; [|apply keeps_raise].
  apply keeps_bind; [apply keeps_donations_total|].
  intros t. apply keeps_lift.
Qed.

(** X5. The read handlers never write: [list_projects], [get_project] and
    [test_database] leave every collection of the store as it was, in
    every process state and whatever they answer. *)
Theorem reads_never_write `{Libraries} (category_ : option string)
    (featured_ : option bool) (project_id_ : string) (w : world)
    (coll : string) :
  stored (list_projects category_ featured_ w).2 coll = stored w coll /\
  stored (get_project project_id_ w).2 coll = stored w coll /\
  stored (test_database w).2 coll = stored w coll.
Proof.
  split; [apply keeps_list_projects|]. split; [apply keeps_get_project|].
  unfold test_database, test_database_try, list_collection_names. run.
  unfold stored.
  destruct (db w) as [d|] eqn:Hdb; cbn [fst snd].
  - rewrite Hdb. cbn [fst snd log fault]. destruct (fault d); reflexivity.
  - cbn. now rewrite Hdb.
Qed.

(** ** Writes *)

Lemma create_document_reachable `{Libraries} (coll : string) (data : dict)
    (w : world) (d : Database) :
  db w = Some d -> fault d = None ->
  create_document coll data w =
    (Ok (new_ObjectId (issued d)), set_db (after_insert coll data d) w).
Proof.
  intros Hdb Hf. unfold create_document, insert_one, after_insert. run.
  rewrite Hdb. cbn. rewrite Hf. reflexivity.
Qed.

Lemma create_document_raises `{Libraries} (coll : string) (data : dict)
    (w : world) (e : exn) :
  (create_document coll data w).1 = Raise e ->
  plain e /\ forall c, stored (create_document coll data w).2 c = stored w c.
Proof.
  unfold create_document, insert_one. run. unfold stored.
  destruct (db w) as [d|] eqn:Hdb; cbn.
  - destruct (fault d) as [msg|] eqn:Hf; cbn; [|discriminate].
    intros [= <-]. split; [eexists; reflexivity|reflexivity].
  - intros [= <-]. split; [eexists; reflexivity|]. now rewrite Hdb.
Qed.

Lemma stored_after_insert `{Libraries} (coll c : string) (data : dict)
    (w : world) (d : Database) :
  db w = Some d ->
  stored (set_db (after_insert coll data d) w) c =
    if bool_decide (c = coll)
    then stored w coll ++ [{| _id := new_ObjectId (issued d); fields := data |}]
    else stored w c.
Proof.
  intros Hdb. unfold stored, after_insert, docs_of. rewrite Hdb. cbn.
  destruct (bool_decide_reflect (c = coll)) as [->|Hne].
  - now rewrite lookup_insert_eq.
  - now rewrite lookup_insert_ne by congruence.
Qed.

Lemma find_project_reachable `{Libraries} (s : string) (w : world)
    (d : Database) (oid : string) :
  db w = Some d -> fault d = None -> ObjectId s = inr oid ->
  find_project s w =
    (Ok (List.find (fun x => bool_decide (_id x = oid)) (docs_of d "project")),
     set_db (log (FindOne "project" oid) d) w).
Proof.
  intros Hdb Hf Hoid. unfold find_project, find_one, ObjectId_. run.
  rewrite Hdb. cbn. rewrite Hoid. cbn. rewrite Hf. reflexivity.
Qed.

Lemma create_donation_run `{Libraries} (donation : Donation) (w : world)
    (d : Database) (oid : string) (x : document) :
  db w = Some d -> fault d = None ->
  ObjectId (project_id donation) = inr oid ->
  List.find (fun y => bool_decide (_id y = oid)) (docs_of d "project") = Some x ->
  create_donation donation w =
    (Ok (new_ObjectId (issued d)),
     set_db (after_insert "donation" (model_dump donation)
               (log (FindOne "project" oid) d)) w).
Proof.
  intros Hdb Hf Hoid Hfind.
  unfold create_donation, create_donation_try, except_reraise_500,
    try_except, bind, ObjectId_.
  rewrite Hoid. cbn.
  rewrite (find_project_reachable _ _ _ _ Hdb Hf Hoid), Hfind.
  rewrite (create_document_reachable "donation" _
             (set_db (log (FindOne "project" oid) d) w)
             (log (FindOne "project" oid) d) eq_refl Hf).
  reflexivity.
Qed.

(** X1. On a reachable store, when the project_id resolves to a stored
    project, [create_donation] answers with the identifier the store
    generated and the donation collection has gained exactly one document,
    last, carrying that identifier and the fields of the request; every
    other collection is as before, and the driver received one lookup
    followed by one insert. *)
Theorem create_donation_inserts_one `{Libraries} (donation : Donation)
    (w : world) (d : Database) (oid : string) (x : document) :
  db w = Some d -> fault d = None ->
  ObjectId (project_id donation) = inr oid ->
  List.find (fun y => bool_decide (_id y = oid)) (docs_of d "project") = Some x ->
  (create_donation donation w).1 = Ok (new_ObjectId (issued d)) /\
  stored (create_donation donation w).2 "donation" =
    stored w "donation" ++
      [{| _id := new_ObjectId (issued d); fields := model_dump donation |}] /\
  (forall coll, coll <> "donation" ->
     stored (create_donation donation w).2 coll = stored w coll) /\
  driver_calls (create_donation donation w).2 =
    driver_calls w ++
      [FindOne "project" oid; InsertOne "donation" (model_dump donation)].
Proof.
  intros Hdb Hf Hoid Hfind.
  rewrite (create_donation_run _ _ _ _ _ Hdb Hf Hoid Hfind).
  cbn [fst snd]. split; [reflexivity|].
  unfold stored, driver_calls, after_insert, docs_of. rewrite Hdb. cbn.
  split; [now rewrite lookup_insert_eq|].
  split; [|now rewrite <- app_assoc].
  intros coll Hne. now rewrite lookup_insert_ne by congruence.
Qed.

Lemma create_donation_try_raises `{Libraries} (donation : Donation)
    (w : world) (e : exn) :
  (create_donation_try donation w).1 = Raise e ->
  (plain e \/ e = HTTPException 400 "Invalid project_id"
   \/ e = HTTPException 404 "Project not found") /\
  forall c, stored (create_donation_try donation w).2 c = stored w c.
Proof.
  unfold create_donation_try, ObjectId_, bind, try_except.
  destruct (ObjectId (project_id donation)) as [msg|oid]; cbn.
  - intros [= <-]. split; [right; now left|reflexivity].
  - pose proof (keeps_find_project (project_id donation) w) as Hkeep.
    destruct (find_project (project_id donation) w) as [[[x|]|e'] w1] eqn:Hf;
      cbn in *.
    + intros Hc. destruct (create_document_raises _ _ _ _ Hc) as [Hp Hsame].
      split; [now left|]. intros c. now rewrite Hsame.
    + intros [= <-]. split; [right; now right|exact Hkeep].
    + intros [= ->]. split; [|exact Hkeep]. left.
      apply (find_project_plain (project_id donation) w). now rewrite Hf.
Qed.

(** ** The answers a client can get *)

Lemma except_reraise_500_raises {S A} (m : M S A) (s : S) (e : exn) :
  (except_reraise_500 m s).1 = Raise e ->
  (exists c d, e = HTTPException c d /\ (m s).1 = Raise e) \/
  (exists msg, (m s).1 = Raise (Exception msg) /\ e = HTTPException 500 msg).
Proof.
  unfold except_reraise_500, try_except, raise.
  destruct (m s) as [[a|[c d|msg]] s']; cbn; [discriminate| |].
  - intros [= <-]. left. eauto.
  - intros [= <-]. right. eauto.
Qed.

Lemma get_project_try_raises `{Libraries} (project_id_ : string) (w : world)
    (e : exn) :
  (get_project_try project_id_ w).1 = Raise e ->
  plain e \/ e = HTTPException 404 "Project not found".
Proof.
  unfold get_project_try, bind.
  destruct (find_project project_id_ w) as [[[x|]|e'] w1] eqn:Hf; cbn.
  - destruct (donations_total project_id_ w1) as [[t|e'] w2] eqn:Ht; cbn.
    + unfold lift; cbn. intros Hc. left. eapply project_out_plain, Hc.
    + intros [= ->]. left.
      apply (donations_total_plain project_id_ w1). now rewrite Ht.
  - intros [= <-]. now right.
  - intros [= ->]. left.
    apply (find_project_plain project_id_ w). now rewrite Hf.
Qed.

(** X7. Every error a handler answers with is an [HTTPException], and its
    status is one of few: [list_projects] and [create_project] only ever
    raise 500; [get_project] raises 404 "Project not found" or 500;
    [create_donation] raises 400 "Invalid project_id", 404 "Project not
    found" or 500. *)
Theorem handlers_status_codes `{Libraries} (category_ : option string)
    (featured_ : option bool) (project : schemas.Project)
    (project_id_ : string) (donation : Donation) (w : world) (e : exn) :
  ((list_projects category_ featured_ w).1 = Raise e ->
   exists detail_, e = HTTPException 500 detail_) /\
  ((create_project project w).1 = Raise e ->
   exists detail_, e = HTTPException 500 detail_) /\
  ((get_project project_id_ w).1 = Raise e ->
   e = HTTPException 404 "Project not found" \/
   exists detail_, e = HTTPException 500 detail_) /\
  ((create_donation donation w).1 = Raise e ->
   e = HTTPException 400 "Invalid project_id" \/
   e = HTTPException 404 "Project not found" \/
   exists detail_, e = HTTPException 500 detail_).
Proof.
  assert (H500 : forall A (m : M world A),
            (except_500 m w).1 = Raise e ->
            exists detail_, e = HTTPException 500 detail_).
  { intros A m. unfold except_500, try_except, raise.
    destruct (m w) as [[a|e'] w1]; cbn; [discriminate|].
    intros [= <-]. eauto. }
  split; [apply H500|]. split; [apply H500|]. split; intros Hr.
  - apply except_reraise_500_raises in Hr
      as [(c & d & -> & Hbody)|(msg & _ & ->)]; [|eauto].
    apply get_project_try_raises in Hbody as [[msg [=]]|Hnf]. now left.
  - apply except_reraise_500_raises in Hr
      as [(c & d & -> & Hbody)|(msg & _ & ->)]; [|eauto].
    apply create_donation_try_raises in Hbody as [[[msg [=]]|[H400|H404]] _];
      auto.
Qed.

(** X4. On a reachable store, an id that parses and that no stored project
    carries makes [get_project] answer 404 "Project not found" after a
    single lookup: no aggregation is asked of the store. *)
Theorem get_project_unknown_404 `{Libraries} (project_id_ oid : string)
    (w : world) :
  reachable w ->
  ObjectId project_id_ = inr oid ->
  (forall x, x ∈ stored w "project" -> _id x <> oid) ->
  (get_project project_id_ w).1 =
    Raise (HTTPException 404 "Project not found") /\
  driver_calls (get_project project_id_ w).2 =
    driver_calls w ++ [FindOne "project" oid].
Proof.
  intros (d & Hdb & Hf) Hoid Habsent. apply find_none_iff in Habsent.
  unfold stored in Habsent. rewrite Hdb in Habsent.
  unfold get_project, get_project_try, except_reraise_500, try_except, bind.
  rewrite (find_project_reachable _ _ _ _ Hdb Hf Hoid), Habsent. cbn.
  unfold driver_calls. now rewrite Hdb.
Qed.

(** ** Listings *)

Lemma matches_spec (filter : gmap string qvalue) (x : document) :
  matches filter x = true <->
  forall k q, filter !! k = Some q -> field_matches x k q = true.
Proof.
  unfold matches. rewrite forallb_forall. split.
  - intros Hall k q Hkq. apply (Hall (k, q)).
    apply list_elem_of_In, elem_of_map_to_list, Hkq.
  - intros Hall [k q] Hin. cbn. apply Hall.
    apply elem_of_map_to_list, list_elem_of_In, Hin.
Qed.

Lemma filter_all {A} (f : A -> bool) (xs : list A) :
  (forall x, f x = true) -> List.filter f xs = xs.
Proof.
  intros Hall. induction xs as [|x xs IH]; cbn; [reflexivity|].
  now rewrite Hall, IH.
Qed.

Lemma view_from_id `{Libraries} (donations : list document) (key : string)
    (x : document) (v : ProjectOut) :
  view_from donations key x = Ok v -> id v = _id x.
Proof.
  unfold view_from. destruct (total_from donations key); [|discriminate].
  intros Hv. now apply project_out_ok in Hv as (Hid & _).
Qed.

Lemma views_ids `{Libraries} (donations xs : list document)
    (vs : list ProjectOut) :
  Forall2 (fun x v => view_from donations (_id x) x = Ok v) xs vs ->
  map id vs = map _id xs.
Proof.
  induction 1 as [|x v xs vs Hx Hrest IH]; cbn; [reflexivity|].
  f_equal; [eapply view_from_id, Hx|exact IH].
Qed.

(** X8. On a reachable store, [list_projects] without filters answers with
    one view for every stored project, each exactly once and in the
    store's order: the identifiers of the views are the identifiers of the
    stored projects.  It answers so exactly when every stored project has
    a view. *)
Theorem list_projects_all `{Libraries} (w : world) (d : Database) :
  db w = Some d -> fault d = None ->
  (forall vs,
     (list_projects None None w).1 = Ok vs <->
     Forall2 (fun x v => view_from (docs_of d "donation") (_id x) x = Ok v)
       (docs_of d "project") vs) /\
  (forall vs,
     (list_projects None None w).1 = Ok vs ->
     map id vs = map _id (docs_of d "project")).
Proof.
  intros Hdb Hf.
  assert (Hiff : forall vs,
     (list_projects None None w).1 = Ok vs <->
     Forall2 (fun x v => view_from (docs_of d "donation") (_id x) x = Ok v)
       (docs_of d "project") vs).
  { intros vs. rewrite (list_projects_reachable _ _ _ _ Hdb Hf).
    rewrite filter_all by reflexivity.
    destruct (views_from _ _ _) as [vs0|e] eqn:Hviews; cbn.
    - apply views_from_ok in Hviews as (vs' & -> & Hall). cbn. split.
      + now intros [= <-].
      + intros Hall'. f_equal. clear -Hall Hall'.
        revert vs Hall'. induction Hall as [|x v xs vs' Hx Hrest IH];
          intros vs Hall'; inversion Hall' as [|? v' ? vs'' Hx' Hrest'];
          subst; [reflexivity|].
        f_equal; [congruence|now apply IH].
    - split; [discriminate|]. intros Hall.
      assert (Hsome : views_from (docs_of d "donation")
                (docs_of d "project") [] = Ok vs)
        by (apply views_from_ok; eauto).
      congruence. }
  split; [exact Hiff|].
  intros vs Hok. apply Hiff in Hok. eapply views_ids, Hok.
Qed.

Lemma field_matches_str (x : document) (k c : string) :
  field_matches x k (QStr c) = true <-> fields x !! k = Some (VStr c).
Proof.
  unfold field_matches.
  destruct (fields x !! k) as [[|s|b|z|f]|]; split; try discriminate.
  - intros Hd. apply bool_decide_eq_true in Hd. now subst.
  - intros [= ->]. now apply bool_decide_eq_true.
Qed.

Lemma field_matches_bool (x : document) (k : string) (b : bool) :
  field_matches x k (QBool b) = true <-> fields x !! k = Some (VBool b).
Proof.
  unfold field_matches.
  destruct (fields x !! k) as [[|s|b'|z|f]|]; split; try discriminate.
  - intros Hd. apply bool_decide_eq_true in Hd. now subst.
  - intros [= ->]. now apply bool_decide_eq_true.
Qed.

(** The filter [list_projects] builds, key by key. *)
Lemma filter_dict_lookup `{Libraries} (category_ : option string)
    (featured_ : option bool) (k : string) (q : qvalue) :
  filter_dict category_ featured_ !! k = Some q <->
  (k = "category" /\ exists c, category_ = Some c /\ c <> "" /\ q = QStr c) \/
  (k = "featured" /\ exists b, featured_ = Some b /\ q = QBool b).
Proof.
  unfold filter_dict.
  destruct category_ as [c|], featured_ as [b|];
    try destruct (bool_decide_reflect (c = "")) as [Hc|Hc];
    repeat rewrite lookup_insert_Some; rewrite ?lookup_empty;
    split; intros Hk.
  all: repeat match goal with
       | Hx : _ \/ _ |- _ => destruct Hx
       | Hx : _ /\ _ |- _ => destruct Hx
       | Hx : exists _, _ |- _ => destruct Hx
       | Hx : Some _ = Some _ |- _ => injection Hx as <-
       | Hx : None = Some _ |- _ => discriminate Hx
       end; subst; try congruence; try discriminate.
  all: try (right; split; [reflexivity|]; eexists; split; reflexivity).
  all: try (left; split; [reflexivity|]; eexists; repeat split; assumption).
  all: try (left; split; reflexivity).
  all: try (right; split; [discriminate|left; split; reflexivity]).
Qed.

Lemma matches_filter_dict `{Libraries} (category_ : option string)
    (featured_ : option bool) (x : document) :
  matches (filter_dict category_ featured_) x = true <->
  (forall c, category_ = Some c -> c <> "" ->
     fields x !! "category" = Some (VStr c)) /\
  (forall b, featured_ = Some b -> fields x !! "featured" = Some (VBool b)).
Proof.
  rewrite matches_spec. split.
  - intros Hall. split.
    + intros c Hc Hne. apply field_matches_str, Hall, filter_dict_lookup.
      left. split; [reflexivity|]. exists c. auto.
    + intros b Hb. apply field_matches_bool, Hall, filter_dict_lookup.
      right. split; [reflexivity|]. exists b. auto.
  - intros [Hcat Hfeat] k q Hkq.
    apply filter_dict_lookup in Hkq
      as [(-> & c & Hc & Hne & ->)|(-> & b & Hb & ->)].
    + apply field_matches_str. now apply Hcat.
    + apply field_matches_bool. now apply Hfeat.
Qed.

Lemma Forall2_elem_of_l {A B} (R : A -> B -> Prop) (xs : list A)
    (ys : list B) (x : A) :
  Forall2 R xs ys -> x ∈ xs -> exists y, y ∈ ys /\ R x y.
Proof.
  induction 1 as [|x' y xs ys Hxy Hall IH]; intros Hin.
  - inversion Hin.
  - apply elem_of_cons in Hin as [->|Hin].
    + exists y. split; [left|exact Hxy].
    + destruct (IH Hin) as (y' & Hy' & HR). exists y'. split; [now right|exact HR].
Qed.

(** X9. Whatever [list_projects] returns respects the filters of the call:
    every view belongs to a stored project whose [category] field is the
    given non-empty text and whose [featured] field is the given boolean
    ([False] is a filter like [True]), and the view shows these values;
    conversely every stored project with these stored fields has its view
    in the answer. *)
Theorem list_projects_respects_filters `{Libraries}
    (category_ : option string) (featured_ : option bool) (w : world)
    (vs : list ProjectOut) :
  (list_projects category_ featured_ w).1 = Ok vs ->
  (forall v, v ∈ vs ->
     (forall c, category_ = Some c -> c <> "" -> category v = c) /\
     (forall b, featured_ = Some b -> featured v = b) /\
     exists x, x ∈ stored w "project" /\ id v = _id x /\
       matches (filter_dict category_ featured_) x = true) /\
  (forall x, x ∈ stored w "project" ->
     (forall c, category_ = Some c -> c <> "" ->
        fields x !! "category" = Some (VStr c)) ->
     (forall b, featured_ = Some b -> fields x !! "featured" = Some (VBool b)) ->
     exists v, v ∈ vs /\ id v = _id x).
Proof.
  intros Hok.
  destruct (list_projects_ok_reachable _ _ _ _ Hok) as (d & Hdb & Hf).
  rewrite (list_projects_reachable _ _ _ _ Hdb Hf) in Hok.
  unfold stored. rewrite Hdb.
  destruct (views_from _ _ _) as [vs0|e] eqn:Hviews; [|discriminate].
  injection Hok as ->. apply views_from_ok in Hviews as (vs' & -> & Hall).
  cbn. split.
  - intros v Hin.
    destruct (Forall2_elem_of_r _ _ _ _ Hall Hin) as (x & Hx & Hview).
    apply list_elem_of_In, filter_In in Hx as [Hx Hsel].
    pose proof (proj1 (matches_filter_dict _ _ _) Hsel) as [Hcat Hfeat].
    pose proof (view_from_id _ _ _ _ Hview) as Hid.
    unfold view_from in Hview.
    destruct (total_from _ _) as [t|e]; [|discriminate].
    apply project_out_ok in Hview as (_ & _ & _ & _ & _ & _ & Hc & _ & Hb).
    split; [|split].
    + intros c Hc' Hne. unfold get in Hc. rewrite (Hcat c Hc' Hne) in Hc.
      cbn in Hc. congruence.
    + intros b Hb'. unfold get in Hb. rewrite (Hfeat b Hb') in Hb. exact Hb.
    + exists x. split; [now apply list_elem_of_In|]. split; assumption.
  - intros x Hx Hcat Hfeat.
    assert (Hsel : x ∈ List.filter (matches (filter_dict category_ featured_))
                     (docs_of d "project")).
    { apply list_elem_of_In, filter_In. split; [now apply list_elem_of_In|].
      apply matches_filter_dict. split; assumption. }
    destruct (Forall2_elem_of_l _ _ _ _ Hall Hsel) as (v & Hv & Hview).
    exists v. split; [exact Hv|]. eapply view_from_id, Hview.
Qed.

(** ** A donation and the totals read afterwards *)

Lemma total_from_some `{Libraries} (donations : list document) (key : string) :
  List.filter (refers_to key) donations <> [] ->
  total_from donations key = py_float (sum_values (amounts key donations)).
Proof.
  intros Hne. unfold amounts.
  destruct (List.filter (refers_to key) donations) as [|y ys] eqn:Hm;
    [congruence|].
  now apply total_from_matching.
Qed.

Lemma refers_to_dump (key : string) (donation : Donation) (i : string) :
  refers_to key {| _id := i; fields := model_dump donation |} =
    bool_decide (project_id donation = key).
Proof. reflexivity. Qed.

Lemma docs_after_insert `{Libraries} (coll c : string) (data : dict)
    (d : Database) :
  docs_of (after_insert coll data d) c =
    if bool_decide (c = coll)
    then docs_of d coll ++ [{| _id := new_ObjectId (issued d); fields := data |}]
    else docs_of d c.
Proof.
  unfold after_insert, docs_of. cbn.
  destruct (bool_decide_reflect (c = coll)) as [->|Hne].
  - now rewrite lookup_insert_eq.
  - now rewrite lookup_insert_ne by congruence.
Qed.

(** X2. A donation that [create_donation] accepted is counted by the next
    [get_project] asked with the same project_id text: the total it reports
    is [float] of the store's sum over the amounts stored under that text
    before, followed by the amount just given. *)
Theorem donation_is_counted `{Libraries} (donation : Donation) (w : world)
    (d : Database) (oid : string) (x : document) :
  db w = Some d -> fault d = None ->
  ObjectId (project_id donation) = inr oid ->
  List.find (fun y => bool_decide (_id y = oid)) (docs_of d "project") = Some x ->
  (get_project (project_id donation) (create_donation donation w).2).1 =
    to_500
      match py_float (sum_values
              (amounts (project_id donation) (docs_of d "donation")
               ++ [VFloat (amount donation)])) with
      | Ok t => project_out (_id x) (fields x) t
      | Raise e => Raise e
      end.
Proof.
  intros Hdb Hf Hoid Hfind.
  rewrite (create_donation_run _ _ _ _ _ Hdb Hf Hoid Hfind). cbn [snd].
  rewrite (get_project_reachable (project_id donation)
             (set_db (after_insert "donation" (model_dump donation)
                        (log (FindOne "project" oid) d)) w)
             (after_insert "donation" (model_dump donation)
                (log (FindOne "project" oid) d)) eq_refl Hf).
  rewrite Hoid, !docs_after_insert. cbn [bool_decide].
  rewrite !docs_of_log.
  replace (bool_decide ("project" = "donation")) with false by reflexivity.
  replace (bool_decide ("donation" = "donation")) with true by reflexivity.
  rewrite Hfind. unfold view_from.
  rewrite total_from_some.
  - unfold amounts. rewrite List.filter_app, omap_app. cbn [List.filter].
    rewrite refers_to_dump, bool_decide_eq_true_2 by reflexivity.
    reflexivity.
  - rewrite List.filter_app. cbn [List.filter].
    rewrite refers_to_dump, bool_decide_eq_true_2 by reflexivity.
    intros Hnil. now apply app_eq_nil in Hnil as [_ [=]].
Qed.

(** X3. A donation accepted for one project_id leaves what [get_project]
    answers for any other id text untouched. *)
Theorem donation_elsewhere_changes_nothing `{Libraries} (donation : Donation)
    (key : string) (w : world) (d : Database) (oid : string) (x : document) :
  db w = Some d -> fault d = None ->
  ObjectId (project_id donation) = inr oid ->
  List.find (fun y => bool_decide (_id y = oid)) (docs_of d "project") = Some x ->
  key <> project_id donation ->
  (get_project key (create_donation donation w).2).1 = (get_project key w).1.
Proof.
  intros Hdb Hf Hoid Hfind Hkey.
  rewrite (create_donation_run _ _ _ _ _ Hdb Hf Hoid Hfind). cbn [snd].
  rewrite (get_project_reachable key
             (set_db (after_insert "donation" (model_dump donation)
                        (log (FindOne "project" oid) d)) w)
             (after_insert "donation" (model_dump donation)
                (log (FindOne "project" oid) d)) eq_refl Hf).
  rewrite (get_project_reachable key w d Hdb Hf).
  rewrite !docs_after_insert, !docs_of_log.
  replace (bool_decide ("project" = "donation")) with false by reflexivity.
  replace (bool_decide ("donation" = "donation")) with true by reflexivity.
  destruct (ObjectId key) as [msg|oid']; [reflexivity|].
  destruct (List.find (fun y => bool_decide (_id y = oid'))
              (docs_of d "project")) as [x'|]; [|reflexivity].
  unfold view_from, total_from, group_totals.
  rewrite List.filter_app. cbn [List.filter].
  rewrite refers_to_dump, bool_decide_eq_false_2 by congruence.
  now rewrite app_nil_r.
Qed.

(** ** A project and the view read afterwards *)

Lemma find_app_none {A} (f : A -> bool) (xs ys : list A) :
  List.find f xs = None -> List.find f (xs ++ ys) = List.find f ys.
Proof.
  induction xs as [|x xs IH]; cbn; [reflexivity|].
  destruct (f x); [discriminate|exact IH].
Qed.

Lemma create_project_run `{Libraries} (project : schemas.Project) (w : world)
    (d : Database) :
  db w = Some d -> fault d = None ->
  create_project project w =
    (Ok (new_ObjectId (issued d)),
     set_db (after_insert "project" (model_dump_project project) d) w).
Proof.
  intros Hdb Hf. unfold create_project, except_500, try_except, bind.
  now rewrite (create_document_reachable _ _ _ _ Hdb Hf).
Qed.

(** X10. On a reachable store, [create_project] answers with the
    identifier the store generated and appends the project to the project
    collection.  When that identifier parses to itself, no stored project
    carries it yet and no donation is stored under it, [get_project] asked
    with it answers with the view of what was given, field by field, and
    [total_donations = 0.0]. *)
Theorem create_project_then_get `{Libraries} (project : schemas.Project)
    (w : world) (d : Database) :
  db w = Some d -> fault d = None ->
  ObjectId (new_ObjectId (issued d)) = inr (new_ObjectId (issued d)) ->
  (forall x, x ∈ docs_of d "project" -> _id x <> new_ObjectId (issued d)) ->
  (forall y, y ∈ docs_of d "donation" ->
     refers_to (new_ObjectId (issued d)) y = false) ->
  (create_project project w).1 = Ok (new_ObjectId (issued d)) /\
  stored (create_project project w).2 "project" =
    stored w "project" ++
      [{| _id := new_ObjectId (issued d);
          fields := model_dump_project project |}] /\
  (get_project (new_ObjectId (issued d)) (create_project project w).2).1 =
    Ok {| id := new_ObjectId (issued d);
          title := schemas.title project;
          founder_name := schemas.founder_name project;
          founder_email := schemas.founder_email project;
          description := schemas.description project;
          category := schemas.category project;
          goal_amount := schemas.goal_amount project;
          featured := schemas.featured project;
          total_donations := 0%float |}.
Proof.
  intros Hdb Hf Hself Hfresh Hnone.
  rewrite (create_project_run _ _ _ Hdb Hf). cbn [fst snd].
  split; [reflexivity|]. split.
  - rewrite (stored_after_insert _ _ _ _ _ Hdb).
    now rewrite bool_decide_eq_true_2 by reflexivity.
  - rewrite (get_project_reachable (new_ObjectId (issued d))
               (set_db (after_insert "project" (model_dump_project project) d) w)
               (after_insert "project" (model_dump_project project) d)
               eq_refl Hf).
    rewrite Hself, !docs_after_insert.
    replace (bool_decide ("project" = "project")) with true by reflexivity.
    replace (bool_decide ("donation" = "project")) with false by reflexivity.
    rewrite find_app_none by (now apply find_none_iff).
    cbn [List.find _id]. rewrite bool_decide_eq_true_2 by reflexivity.
    unfold view_from. rewrite (total_from_none _ _ Hnone). reflexivity.
Qed.

(** ** Fields stored as null *)

Lemma project_out_null `{Libraries} (id_ : string) (d : dict)
    (total : float) (k : string) :
  k ∈ str_fields \/ k = "goal_amount" -> d !! k = Some VNone ->
  exists msg, project_out id_ d total = Raise (Exception msg).
Proof.
  intros Hk Hnull. unfold project_out.
  destruct Hk as [Hk| ->].
  - destruct (py_float (get d "goal_amount" (VInt 0))) as [g|e] eqn:Hg.
    + unfold ProjectOut_new, str_fields in *.
      assert (Hget : forall dflt, as_str (get d k dflt) = None)
        by (intros dflt; unfold get; rewrite Hnull; reflexivity).
      repeat (apply elem_of_cons in Hk as [->|Hk];
              [rewrite Hget;
               repeat match goal with
                      | |- context [match as_str ?v with _ => _ end] =>
                          destruct (as_str v)
                      end; eexists; reflexivity|]).
      inversion Hk.
    + destruct (py_float_plain _ _ Hg) as [msg ->]. eauto.
  - unfold get. rewrite Hnull. cbn. eauto.
Qed.

(** X11. The defaults of the view assembly stand in for a missing key
    only.  When the document a [get_project] id resolves to has title,
    founder_name, founder_email, description, category or goal_amount
    present with the value [None], the answer is a 500, in every process
    state. *)
Theorem null_field_500 `{Libraries} (project_id_ oid : string) (w : world)
    (x : document) (k : string) :
  ObjectId project_id_ = inr oid ->
  List.find (fun y => bool_decide (_id y = oid)) (stored w "project") = Some x ->
  k ∈ str_fields \/ k = "goal_amount" ->
  fields x !! k = Some VNone ->
  exists detail_,
    (get_project project_id_ w).1 = Raise (HTTPException 500 detail_).
Proof.
  intros Hoid Hfind Hk Hnull.
  destruct (db w) as [d|] eqn:Hdb.
  2:{ apply get_project_unreachable. intros (d & Hd & _). congruence. }
  destruct (fault d) as [msg|] eqn:Hf.
  1:{ apply get_project_unreachable. intros (d' & Hd & Hf'). congruence. }
  rewrite (get_project_reachable _ _ _ Hdb Hf), Hoid.
  unfold stored in Hfind. rewrite Hdb in Hfind. rewrite Hfind.
  unfold view_from. destruct (total_from _ _) as [t|e] eqn:Ht.
  - destruct (project_out_null (_id x) (fields x) t k Hk Hnull) as [m ->].
    cbn. eauto.
  - cbn. eauto.
Qed.

(** ** What [create_donation] does not look at *)

(** X13. [create_donation] looks at nothing but the project_id: two
    requests with the same project_id get the same answer in the same
    process state, whatever their amount (negative or not a number
    included), donor name and message. *)
Theorem create_donation_checks_only_project_id `{Libraries}
    (donation donation' : Donation) (w : world) :
  project_id donation = project_id donation' ->
  (create_donation donation w).1 = (create_donation donation' w).1.
Proof.
  intros Hpid.
  unfold create_donation, create_donation_try, except_reraise_500,
    try_except, bind, ObjectId_.
  rewrite <- Hpid.
  destruct (ObjectId (project_id donation)) as [msg|oid]; cbn; [reflexivity|].
  destruct (find_project (project_id donation) w) as [[[x|]|e] w1];
    cbn; try reflexivity.
  unfold create_document, insert_one, on_db, driver.
  destruct (db w1) as [d|]; cbn; [|reflexivity].
  destruct (fault d); reflexivity.
Qed.

(** ** More of [GET /test] *)

(** X12. What [test_database] reports besides the status text.  Without a
    database the url, the name, the connection status and the collection
    list keep their initial values.  With a database, [database_url] tells
    whether [DATABASE_URL] is set to a non-empty text, [database_name] is
    the name of the database, and at most ten collection names are listed:
    the first ten the store gives, none when the store refuses the call. *)
Theorem test_database_report `{Libraries} (w : world) :
  exists r w',
    test_database w = (Ok r, w') /\
    length (collections r) <= 10 /\
    match db w with
    | None =>
        database_url r = None /\ database_name r = None /\
        connection_status r = "Not Connected" /\ collections r = []
    | Some d =>
        database_url r =
          Some (if truthy (DATABASE_URL w) then "✅ Set" else "❌ Not Set") /\
        database_name r = Some (name d) /\
        collections r =
          match fault d with
          | Some _ => []
          | None => take 10 (collection_names (colls d))
          end
    end.
Proof.
  unfold test_database, test_database_try, list_collection_names. run.
  destruct (db w) as [d|] eqn:Hdb; cbn [fst snd].
  - rewrite Hdb. cbn [fst snd log fault]. destruct (fault d) as [msg|] eqn:Hf.
    + do 2 eexists. split; [reflexivity|]. split; [cbn; lia|]. repeat split.
    + do 2 eexists. split; [reflexivity|].
      split; [cbn; rewrite length_take; lia|]. repeat split.
  - do 2 eexists. split; [reflexivity|]. split; [cbn; lia|]. repeat split.
Qed.

(** X14. The piece of an exception text that [test_database] puts into its
    response, [str(e)[:50]], is a prefix of the text with at most 50
    characters, and the whole text when that has no more than 50. *)
Theorem slice_to_prefix (n : nat) (s : string) :
  (exists rest, s = slice_to n s +:+ rest) /\
  chars (slice_to n s) <= n /\
  (chars s <= n -> slice_to n s = s).
Proof.
  revert n. induction s as [|a s IH]; intros n; cbn.
  - split; [exists ""; reflexivity|]. split; [lia|reflexivity].
  - destruct (is_continuation a) eqn:Ha; cbn.
    + destruct (IH n) as ((rest & Hrest) & Hcount & Hall).
      rewrite Ha. cbn.
      split; [exists rest;
              change (String a s = String a (slice_to n s +:+ rest));
              now f_equal|].
      split; [exact Hcount|]. intros Hle. now rewrite Hall.
    + destruct n as [|n]; cbn.
      * split; [eexists; reflexivity|]. split; [lia|]. intros Hle. lia.
      * destruct (IH n) as ((rest & Hrest) & Hcount & Hall).
        rewrite Ha. cbn.
      split; [exists rest;
              change (String a s = String a (slice_to n s +:+ rest));
              now f_equal|].
        split; [lia|]. intros Hle. rewrite Hall by lia. reflexivity.
Qed.

(** * The further properties on concrete requests *)

(** A donation of 250 for [P1] is stored under the first identifier. *)
Lemma create_donation_inserts_one_run :
  (create_donation (H := Reference.libraries) (gift P1 250)
     (store [mars_rover] [])).1 = Ok "000000000000000000000000" /\
  stored (create_donation (H := Reference.libraries) (gift P1 250)
            (store [mars_rover] [])).2 "donation" =
    [{| _id := "000000000000000000000000";
        fields := model_dump (gift P1 250) |}].
Proof.
  destruct (create_donation_inserts_one (H := Reference.libraries)
              (gift P1 250) (store [mars_rover] [])
              (store_db [mars_rover] []) P1 mars_rover)
    as (Hid & Hdon & _); [reflexivity..|].
  split; [exact Hid|exact Hdon].
Defined.

(** After that donation, [get_project] reports 250.0. *)
Lemma donation_is_counted_run :
  (get_project (H := Reference.libraries) P1
     (create_donation (H := Reference.libraries) (gift P1 250)
        (store [mars_rover] [])).2).1 = Ok (mars_rover_view 250).
Proof.
  refine (eq_trans
            (donation_is_counted (H := Reference.libraries) (gift P1 250)
               (store [mars_rover] []) (store_db [mars_rover] []) P1
               mars_rover eq_refl eq_refl eq_refl eq_refl) _).
  reflexivity.
Defined.

(** A donation for [P1] does not change what is answered for the other
    project. *)
Lemma donation_elsewhere_changes_nothing_run :
  (get_project (H := Reference.libraries) (_id unlabelled)
     (create_donation (H := Reference.libraries) (gift P1 250)
        (store [mars_rover; unlabelled] [])).2).1 =
  (get_project (H := Reference.libraries) (_id unlabelled)
     (store [mars_rover; unlabelled] [])).1.
Proof.
  apply (donation_elsewhere_changes_nothing (H := Reference.libraries)
           (gift P1 250) (_id unlabelled) (store [mars_rover; unlabelled] [])
           (store_db [mars_rover; unlabelled] []) P1 mars_rover);
    first [reflexivity | discriminate].
Defined.

(** [GET /api/projects/507f1f77bcf86cd799439099] answers 404. *)
Lemma get_project_unknown_404_run :
  (get_project (H := Reference.libraries) "507f1f77bcf86cd799439099"
     (store [mars_rover] [])).1 =
    Raise (HTTPException 404 "Project not found").
Proof.
  apply (get_project_unknown_404 (H := Reference.libraries)
           "507f1f77bcf86cd799439099" "507f1f77bcf86cd799439099"
           (store [mars_rover] [])).
  - eexists. split; reflexivity.
  - reflexivity.
  - intros x Hx. apply only_mars_rover in Hx. subst x. discriminate.
Defined.

(** The listing without filters of a store with two projects. *)
Lemma list_projects_all_run :
  exists vs,
    (list_projects (H := Reference.libraries) None None
       (store [unlabelled; mars_rover] [])).1 = Ok vs /\
    map id vs = [_id unlabelled; _id mars_rover].
Proof.
  destruct (list_projects_all (H := Reference.libraries)
              (store [unlabelled; mars_rover] [])
              (store_db [unlabelled; mars_rover] [])) as [_ Hids];
    [reflexivity..|].
  eexists. split; [reflexivity|]. apply Hids. reflexivity.
Defined.

(** The listing for category "Space" and featured [False]. *)
Lemma list_projects_respects_filters_run :
  (list_projects (H := Reference.libraries) (Some "Space") (Some false)
     (store [unlabelled; mars_rover] [])).1 = Ok [mars_rover_view 0] /\
  forall v, v ∈ [mars_rover_view 0] ->
    category v = "Space" /\ featured v = false.
Proof.
  split; [reflexivity|].
  destruct (list_projects_respects_filters (H := Reference.libraries)
              (Some "Space") (Some false)
              (store [unlabelled; mars_rover] []) [mars_rover_view 0]
              eq_refl) as [Hviews _].
  intros v Hv. destruct (Hviews v Hv) as (Hc & Hf & _). split.
  - apply Hc; [reflexivity|discriminate].
  - apply Hf. reflexivity.
Defined.

(** A project is created and read back. *)
Lemma create_project_then_get_run :
  (create_project (H := Reference.libraries) moon_base
     (store [mars_rover] [])).1 = Ok "000000000000000000000000" /\
  (get_project (H := Reference.libraries) "000000000000000000000000"
     (create_project (H := Reference.libraries) moon_base
        (store [mars_rover] [])).2).1 =
    Ok {| id := "000000000000000000000000"; title := "Moon Base";
          founder_name := "E"; founder_email := "e@x.com";
          description := "g"; category := "Space"; goal_amount := 2000;
          featured := true; total_donations := 0 |}.
Proof.
  destruct (create_project_then_get (H := Reference.libraries) moon_base
              (store [mars_rover] []) (store_db [mars_rover] []))
    as (Hid & _ & Hget).
  - reflexivity.
  - reflexivity.
  - reflexivity.
  - intros x Hx. apply only_mars_rover in Hx. subst x. discriminate.
  - intros y Hy. inversion Hy.
  - split; [exact Hid|exact Hget].
Defined.

(** A project whose category is stored as null is answered with 500. *)
Lemma null_field_500_run :
  fields null_category !! "category" = Some VNone /\
  exists detail_,
    (get_project (H := Reference.libraries) (_id null_category)
       (store [null_category] [])).1 = Raise (HTTPException 500 detail_).
Proof.
  split; [reflexivity|].
  apply (null_field_500 (H := Reference.libraries) (_id null_category)
           (_id null_category) (store [null_category] []) null_category
           "category").
  - reflexivity.
  - reflexivity.
  - left. unfold str_fields. repeat constructor.
  - reflexivity.
Defined.

(** A donation with a negative amount is answered like any other. *)
Lemma create_donation_checks_only_project_id_run :
  (create_donation (H := Reference.libraries) (gift P1 (-5))
     (store [mars_rover] [])).1 =
  (create_donation (H := Reference.libraries) (gift P1 250)
     (store [mars_rover] [])).1.
Proof.
  apply (create_donation_checks_only_project_id (H := Reference.libraries)
           (gift P1 (-5)) (gift P1 250) (store [mars_rover] [])).
  reflexivity.
Defined.

(** * Listings and the category *)

Lemma views_unique `{Libraries} (donations xs : list document)
    (vs vs' : list ProjectOut) :
  Forall2 (fun x v => view_from donations (_id x) x = Ok v) xs vs ->
  Forall2 (fun x v => view_from donations (_id x) x = Ok v) xs vs' ->
  vs = vs'.
Proof.
  intros Hall. revert vs'.
  induction Hall as [|x v xs vs Hx Hrest IH]; intros vs' Hall';
    inversion Hall' as [|? v' ? vs'' Hx' Hrest']; subst; [reflexivity|].
  f_equal; [congruence|now apply IH].
Qed.

(** On a reachable store a listing answers with the views of the documents
    its filter selects, when each of them has one. *)
Lemma list_projects_selected `{Libraries} (category_ : option string)
    (featured_ : option bool) (sel : document -> bool) (w : world)
    (d : Database) :
  db w = Some d -> fault d = None ->
  (forall x, matches (filter_dict category_ featured_) x = sel x) ->
  forall vs,
    (list_projects category_ featured_ w).1 = Ok vs <->
    Forall2 (fun x v => view_from (docs_of d "donation") (_id x) x = Ok v)
      (List.filter sel (docs_of d "project")) vs.
Proof.
  intros Hdb Hf Hsel vs. rewrite (list_projects_reachable _ _ _ _ Hdb Hf).
  rewrite (List.filter_ext _ sel) by exact Hsel.
  destruct (views_from _ _ _) as [vs0|e] eqn:Hviews; cbn.
  - apply views_from_ok in Hviews as (vs' & -> & Hall). cbn. split.
    + now intros [= <-].
    + intros Hall'. f_equal. eapply views_unique; eassumption.
  - split; [discriminate|]. intros Hall.
    assert (Hsome : views_from (docs_of d "donation")
              (List.filter sel (docs_of d "project")) [] = Ok vs)
      by (apply views_from_ok; eauto).
    congruence.
Qed.

Lemma list_projects_ok_or_500 `{Libraries} (category_ : option string)
    (featured_ : option bool) (w : world) :
  (exists vs, (list_projects category_ featured_ w).1 = Ok vs) \/
  (exists detail_,
     (list_projects category_ featured_ w).1 =
       Raise (HTTPException 500 detail_)).
Proof.
  unfold list_projects, except_500, try_except, raise.
  destruct (bind _ _ w) as [[vs|e] w1]; cbn; eauto.
Qed.

Lemma view_default_category `{Libraries} (donations : list document)
    (key : string) (x : document) (v : ProjectOut) :
  fields x !! "category" = None ->
  view_from donations key x = Ok v -> category v = "AI".
Proof.
  intros Hnone. unfold view_from.
  destruct (total_from donations key); [|discriminate].
  intros Hv. apply project_out_ok in Hv as (_ & _ & _ & _ & _ & _ & Hc & _).
  unfold get in Hc. rewrite Hnone in Hc. cbn in Hc. congruence.
Qed.

Lemma matches_featured `{Libraries} (featured_ : option bool) (x : document) :
  matches (filter_dict (Some "") featured_) x = featured_is featured_ x.
Proof.
  destruct featured_ as [b|]; [|reflexivity].
  change (filter_dict (Some "") (Some b))
    with (<["featured" := QBool b]> (∅ : gmap string qvalue)).
  unfold matches. rewrite insert_empty, map_to_list_singleton. cbn.
  apply andb_true_r.
Qed.

(** C2 (amended). On a reachable store, [list_projects] with category "AI"
    selects exactly the stored projects whose [category] field is the text
    "AI": it answers with one view for each of them, in the store's order
    and with no other view, exactly when each of them has a view, every
    such view carrying the project's identifier and the category "AI";
    otherwise it answers 500.  A project stored without a [category] field
    is never selected, although its view shows the category "AI" both in
    the listing without filters and when it is read by id. *)
Theorem list_projects_category_AI `{Libraries} (w : world) (d : Database) :
  db w = Some d -> fault d = None ->
  (forall vs,
     (list_projects (Some "AI") None w).1 = Ok vs <->
     Forall2 (fun x v => view_from (docs_of d "donation") (_id x) x = Ok v)
       (List.filter (has_category "AI") (docs_of d "project")) vs) /\
  (forall vs,
     (list_projects (Some "AI") None w).1 = Ok vs ->
     Forall2 (fun x v => id v = _id x /\ category v = "AI")
       (List.filter (has_category "AI") (docs_of d "project")) vs) /\
  ((exists vs, (list_projects (Some "AI") None w).1 = Ok vs) \/
   (exists detail_,
      (list_projects (Some "AI") None w).1 =
        Raise (HTTPException 500 detail_))) /\
  (forall x,
     fields x !! "category" = None ->
     (x ∉ List.filter (has_category "AI") (docs_of d "project")) /\
     (forall vs,
        (list_projects None None w).1 = Ok vs ->
        x ∈ docs_of d "project" ->
        exists v, v ∈ vs /\ id v = _id x /\ category v = "AI") /\
     (forall project_id_ oid v,
        ObjectId project_id_ = inr oid ->
        List.find (fun y => bool_decide (_id y = oid)) (docs_of d "project")
          = Some x ->
        (get_project project_id_ w).1 = Ok v ->
        id v = _id x /\ category v = "AI")).
Proof.
  intros Hdb Hf.
  pose proof (list_projects_selected (Some "AI") None (has_category "AI")
                w d Hdb Hf
                (fun x => matches_category "AI" x ltac:(discriminate)))
    as Hiff.
  split; [exact Hiff|]. split; [|split; [apply list_projects_ok_or_500|]].
  - intros vs Hok. apply Hiff in Hok.
    eapply Forall2_impl.
    + apply (Forall2_with_l _ (fun x => has_category "AI" x = true) _ _ Hok).
      apply Forall_forall. intros x Hx. apply list_elem_of_In in Hx.
      now apply filter_In in Hx.
    + cbn. intros x v [Hview Hcat].
      split; [eapply view_from_id, Hview|].
      unfold view_from in Hview.
      destruct (total_from _ _) as [t|e]; [|discriminate].
      apply project_out_ok in Hview as (_ & _ & _ & _ & _ & _ & Hc & _).
      unfold has_category in Hcat. unfold get in Hc.
      destruct (fields x !! "category") as [[|s|b|z|f]|]; try discriminate.
      apply bool_decide_eq_true in Hcat as ->. cbn in Hc. congruence.
  - intros x Hnone. split; [|split].
    + intros Hin. apply list_elem_of_In, filter_In in Hin as [_ Hcat].
      unfold has_category in Hcat. now rewrite Hnone in Hcat.
    + intros vs Hok Hx.
      apply (list_projects_selected None None (fun _ => true) w d Hdb Hf
               (fun _ => eq_refl)) in Hok.
      rewrite filter_all in Hok by reflexivity.
      destruct (Forall2_elem_of_l _ _ _ _ Hok Hx) as (v & Hv & Hview).
      exists v. split; [exact Hv|].
      split; [eapply view_from_id, Hview|].
      eapply view_default_category; eassumption.
    + intros project_id_ oid v Hoid Hfind Hok.
      rewrite (get_project_reachable _ _ _ Hdb Hf), Hoid, Hfind in Hok.
      destruct (view_from (docs_of d "donation") project_id_ x) as [v'|e]
        eqn:Hview; [|discriminate].
      injection Hok as ->.
      split; [eapply view_from_id, Hview|].
      eapply view_default_category; eassumption.
Qed.

(** C9. The empty text as [category] builds the same filter as no category
    at all, so the two calls are the same computation, and the category of
    a project plays no part in the answer: on a reachable store the call
    answers with one view for every stored project that passes the
    [featured] filter, whatever its category, in the store's order; with
    no [featured] either, these are all the stored projects. *)
Theorem list_projects_empty_category `{Libraries}
    (featured_ : option bool) (w : world) :
  list_projects (Some "") featured_ w = list_projects None featured_ w /\
  (forall d,
     db w = Some d -> fault d = None ->
     (forall vs,
        (list_projects (Some "") featured_ w).1 = Ok vs <->
        Forall2 (fun x v => view_from (docs_of d "donation") (_id x) x = Ok v)
          (List.filter (featured_is featured_) (docs_of d "project")) vs) /\
     (forall vs,
        (list_projects (Some "") featured_ w).1 = Ok vs ->
        map id vs =
          map _id (List.filter (featured_is featured_) (docs_of d "project")))) /\
  (forall xs, List.filter (featured_is None) xs = xs).
Proof.
  split; [reflexivity|]. split.
  - intros d Hdb Hf.
    pose proof (list_projects_selected (Some "") featured_
                  (featured_is featured_) w d Hdb Hf
                  (matches_featured featured_)) as Hiff.
    split; [exact Hiff|].
    intros vs Hok. apply Hiff in Hok. eapply views_ids, Hok.
  - intros xs. now apply filter_all.
Qed.

(** The listing for category "AI" of a store that holds a project without
    category, one of category "AI" and one of category "Space": the one
    view is that of the project of category "AI". *)
Lemma list_projects_category_AI_run :
  exists vs,
    (list_projects (H := Reference.libraries) (Some "AI") None
       (store [unlabelled; ai_tutor; mars_rover] [])).1 = Ok vs /\
    length vs = 1 /\
    Forall2 (fun x v => id v = _id x /\ category v = "AI") [ai_tutor] vs.
Proof.
  destruct (list_projects_category_AI (H := Reference.libraries)
              (store [unlabelled; ai_tutor; mars_rover] [])
              (store_db [unlabelled; ai_tutor; mars_rover] [])
              eq_refl eq_refl) as (_ & Hviews & _).
  eexists. split; [reflexivity|]. split; [reflexivity|].
  apply Hviews. reflexivity.
Defined.

(** The listing with the empty text as category of a store that holds
    projects of category "AI", of category "Space" and without category:
    all three are returned. *)
Lemma list_projects_empty_category_run :
  exists vs,
    (list_projects (H := Reference.libraries) (Some "") None
       (store [unlabelled; mars_rover; ai_tutor] [])).1 = Ok vs /\
    map id vs = [_id unlabelled; _id mars_rover; _id ai_tutor] /\
    map category vs = ["AI"; "Space"; "AI"].
Proof.
  destruct (list_projects_empty_category (H := Reference.libraries) None
              (store [unlabelled; mars_rover; ai_tutor] []))
    as (_ & Hreach & _).
  destruct (Hreach (store_db [unlabelled; mars_rover; ai_tutor] [])
              eq_refl eq_refl) as [_ Hids].
  eexists. split; [reflexivity|]. split; [|reflexivity].
  apply Hids. reflexivity.
Defined.

